(** * FebrabanCode: parsing and validation of Brazilian payment codes

    Shallow embedding of [febraban_code.py] (class [FebrabanCode]) and the
    properties of its checksum engine, field extractors, encoders and
    validator.

    Conventions of the embedding:
    - a Python [str] is a list of characters; a character is a code point
      of the range U+0000..U+00FF (the type [ascii]).  Code points above
      U+00FF are outside the model;
    - a Python [int] is a [Z]; lengths and indices are [nat];
    - a raised exception is the [Raise] branch of [result]; statements of a
      method are sequenced with the bind of that monad;
    - the dictionary [__code_info], whose key set is fixed, is a record. *)

From Stdlib Require Import String Ascii ZArith List Bool Arith Lia.
From Stdlib Require Import DecimalString.
Import ListNotations.

Open Scope Z_scope.

(* ================================================================== *)
(** ** The fragment of the Python runtime the class relies on *)
(* ================================================================== *)

Module Py.

(** Exceptions the class raises itself or receives from builtins. *)
Inductive exn : Type :=
| AttributeError
| ValueError
| IndexError
| OverflowError.

Inductive result (A : Type) : Type :=
| Ok (a : A)
| Raise (e : exn).
Arguments Ok {A} a.
Arguments Raise {A} e.

Definition bind {A B : Type} (m : result A) (k : A -> result B) : result B :=
  match m with
  | Ok a => k a
  | Raise e => Raise e
  end.

Definition str : Type := list ascii.

(** Values that reach the class from outside or are stored under a key
    whose type varies (the field check digits are [str] for a line and
    [int] for a bar). *)
Inductive obj : Type :=
| VStr (s : str)
| VInt (n : Z)
| VNone.

Definition code (c : ascii) : nat := nat_of_ascii c.

(** [\d] of [re] and [str.isdecimal]: on U+0000..U+00FF exactly '0'..'9'. *)
Definition isdecimal (c : ascii) : bool :=
  (48 <=? code c)%nat && (code c <=? 57)%nat.

(** [str.isdigit]: on U+0000..U+00FF the decimal digits and the
    superscripts U+00B2, U+00B3 and U+00B9. *)
Definition isdigit (c : ascii) : bool :=
  isdecimal c
  || (code c =? 178)%nat || (code c =? 179)%nat || (code c =? 185)%nat.

(** [int(c)] for a one-character string [c]. *)
Definition int_char (c : ascii) : result Z :=
  if isdecimal c then Ok (Z.of_nat (code c) - 48) else Raise ValueError.

(** [int(s)] for a string.  Exact on the strings the class passes (the
    groups of a [\d{n}] match and single characters); signs, blanks and
    underscores, which [int] also accepts, are not modelled and rejected. *)
Fixpoint int_digits (s : str) (acc : Z) : result Z :=
  match s with
  | [] => Ok acc
  | c :: s' =>
      match int_char c with
      | Ok d => int_digits s' (10 * acc + d)
      | Raise e => Raise e
      end
  end.

Definition int_str (s : str) : result Z :=
  match s with
  | [] => Raise ValueError
  | _ => int_digits s 0
  end.

Definition int (v : obj) : result Z :=
  match v with
  | VStr s => int_str s
  | VInt n => Ok n
  | VNone => Raise ValueError
  end.

(** [str(n)], the text an f-string substitutes for an [int]. *)
Definition str_of_int (n : Z) : str :=
  list_ascii_of_string (NilZero.string_of_int (Z.to_int n)).

(** [f"{v}"]. *)
Definition format (v : obj) : str :=
  match v with
  | VStr s => s
  | VInt n => str_of_int n
  | VNone => list_ascii_of_string "None"%string
  end.

(** [s[i]] for [0 <= i]. *)
Definition getitem {A : Type} (s : list A) (i : nat) : result A :=
  match nth_error s i with
  | Some c => Ok c
  | None => Raise IndexError
  end.

(** [s[-1]]. *)
Definition index_last (s : str) : result ascii :=
  match s with
  | [] => Raise IndexError
  | _ => getitem s (length s - 1)
  end.

(** [s[:n]], [s[n:]], [s[:-n]], [s[-n:]] and [s[::-1]]; slices never
    raise. *)
Definition slice_to (n : nat) (s : str) : str := firstn n s.
Definition slice_from (n : nat) (s : str) : str := skipn n s.
Definition slice_to_neg (n : nat) (s : str) : str := firstn (length s - n) s.
Definition slice_from_neg (n : nat) (s : str) : str := skipn (length s - n) s.
Definition reversed (s : str) : str := rev s.

(** [xs * n] for a list. *)
Definition list_mul {A : Type} (xs : list A) (n : nat) : list A :=
  concat (repeat xs n).

End Py.

Import Py.

Declare Scope py_scope.
Delimit Scope py_scope with py.
Notation "x <- m ;; k" := (bind m (fun x => k))
  (at level 61, m at next level, right associativity) : py_scope.
Notation "' pat <- m ;; k" := (bind m (fun x => match x with pat => k end))
  (at level 61, pat pattern, m at next level, right associativity) : py_scope.
Open Scope py_scope.

(** String literals of the source and of the examples. *)
Definition lit (s : string) : str := list_ascii_of_string s.

(* ================================================================== *)
(** ** Checksum engine *)
(* ================================================================== *)

(** The body of [for count, digit in enumerate(number[::-1])], with the
    running [count] and [total]. *)
Fixpoint dv10_loop (multipliers : list Z) (items : str) (count : nat)
    (total : Z) : result Z :=
  match items with
  | [] => Ok total
  | digit :: items' =>
      d <- int_char digit ;;
      m <- getitem multipliers count ;;
      let product := d * m in
      let total :=
        total + (if product <? 10 then product
                 else product / 10 + product mod 10) in
      dv10_loop multipliers items' (S count) total
  end.

Definition __get_dv_module_10 (number : str) : result Z :=
  let multipliers := list_mul [2; 1] ((length number + 1) / 2)%nat in
  total <- dv10_loop multipliers (reversed number) 0%nat 0 ;;
  let remainder := total mod 10 in
  let dv_calculated := if negb (remainder =? 0) then 10 - remainder else 0 in
  Ok dv_calculated.

(** The body of [for digit in range(0, len(number))], with the running
    [total] and [multiplier]; the result is the state at loop exit. *)
Fixpoint dv11_loop (number : str) (range : list nat) (total multiplier : Z)
    : result (Z * Z) :=
  match range with
  | [] => Ok (total, multiplier)
  | digit :: range' =>
      c <- getitem number digit ;;
      d <- int_char c ;;
      let total := total + d * multiplier in
      let multiplier := if multiplier =? 2 then 10 else multiplier in
      let multiplier := multiplier - 1 in
      dv11_loop number range' total multiplier
  end.

Definition __get_dv_module_11 (number : str) : result Z :=
  '(total, _) <- dv11_loop number (seq 0 (length number)) 0 4 ;;
  let dv := 11 - total mod 11 in
  if (dv =? 0) || (dv =? 10) || (dv =? 11) then Ok 1 else Ok dv.

(* ================================================================== *)
(** ** Date and value decoding *)
(* ================================================================== *)

(** A [datetime.date], by its proleptic Gregorian ordinal
    ([date.toordinal()]). *)
Inductive date : Type := Date (ordinal : Z).

Definition date_max_ordinal : Z := 3652059.   (* date(9999, 12, 31) *)
Definition timedelta_max_days : Z := 999999999.

(** [datetime(1997, 10, 7).date()]. *)
Definition base_date : date := Date 729304.

(** [timedelta(days=n)], by its number of days. *)
Definition timedelta (days : Z) : result Z :=
  if Z.abs days <=? timedelta_max_days then Ok days else Raise OverflowError.

(** [d + delta]. *)
Definition date_add (d : date) (delta : Z) : result date :=
  let 'Date o := d in
  if (1 <=? o + delta) && (o + delta <=? date_max_ordinal)
  then Ok (Date (o + delta)) else Raise OverflowError.

Definition __get_expiry (expiry_factor : str) : result date :=
  days <- int_str expiry_factor ;;
  delta <- timedelta days ;;
  expiry <- date_add base_date delta ;;
  Ok expiry.

(** The decimal [digits / 10^scale] that [float] reads from a literal
    [whole.frac]; the rounding of that decimal to a binary64 is not
    modelled. *)
Record decimal : Type := { digits : Z; scale : nat }.

Fixpoint split_dot (s : str) : option (str * str) :=
  match s with
  | [] => None
  | c :: s' =>
      if (code c =? 46)%nat then Some ([], s')
      else match split_dot s' with
           | Some (w, f) => Some (c :: w, f)
           | None => None
           end
  end.

(** [float(s)] on literals [whole.frac] of decimal digits, the only ones the
    class builds; exponents, signs, blanks, [inf] and [nan] are not
    modelled and rejected. *)
Definition float_str (s : str) : result decimal :=
  match split_dot s with
  | Some (w, f) =>
      if forallb isdecimal (w ++ f) && negb ((length (w ++ f) =? 0)%nat)
      then n <- int_digits (w ++ f) 0 ;; Ok {| digits := n; scale := length f |}
      else Raise ValueError
  | None => Raise ValueError
  end.

Definition __convert_value_factor (value : str) : result decimal :=
  float_str (slice_to_neg 2 value ++ lit "." ++ slice_from_neg 2 value).

(* ================================================================== *)
(** ** Matcher *)
(* ================================================================== *)

Inductive code_type : Type := line | bar.

(** The dictionary [{"type": ..., "value": ...}] returned by the matcher. *)
Module Match.
Record t : Type := mk { type : code_type; value : str }.
End Match.

(** [valid_length = {47: "line", 44: "bar"}]. *)
Definition valid_length : list (nat * code_type) := [(47%nat, line); (44%nat, bar)].

(** [d.get(k)]; absence of the key is [None]. *)
Fixpoint dict_get {V : Type} (d : list (nat * V)) (k : nat) : option V :=
  match d with
  | [] => None
  | (k', v) :: d' => if (k =? k')%nat then Some v else dict_get d' k
  end.

(** The join of [char for char in code if char.isdigit()]. *)
Definition clean (code : str) : str := filter isdigit code.

Definition __code_match (code : obj) : result Match.t :=
  match code with
  | VStr code =>
      let code := clean code in
      match dict_get valid_length (length code) with
      | None => Raise ValueError
      | Some t => Ok (Match.mk t code)
      end
  | _ => Raise AttributeError
  end.

(* ================================================================== *)
(** ** Field extractor *)
(* ================================================================== *)

(** [re.search] for the patterns of the class, which are sequences of
    groups [(\d{n})]: a pattern is the list of its widths. *)
Definition match_group (n : nat) (s : str) : option (str * str) :=
  let g := firstn n s in
  if (length g =? n)%nat && forallb isdecimal g then Some (g, skipn n s)
  else None.

Fixpoint match_here (widths : list nat) (s : str) : option (list str) :=
  match widths with
  | [] => Some []
  | n :: widths' =>
      match match_group n s with
      | Some (g, rest) =>
          match match_here widths' rest with
          | Some gs => Some (g :: gs)
          | None => None
          end
      | None => None
      end
  end.

(** The leftmost position where the pattern matches, or [None]. *)
Fixpoint re_search (widths : list nat) (s : str) : option (list str) :=
  match match_here widths s with
  | Some gs => Some gs
  | None =>
      match s with
      | [] => None
      | _ :: s' => re_search widths s'
      end
  end.

(** [match.group(i)]; on [None] the attribute lookup raises. *)
Definition group (m : option (list str)) (i : nat) : result str :=
  match m with
  | None => Raise AttributeError
  | Some gs => getitem gs (i - 1)
  end.

Module Field.
Record t : Type := mk { info : str; dv : obj }.
End Field.

(** The dictionary [__code_info]. *)
Record code_info : Type := {
  type : code_type;
  bank : str;
  currency : str;
  field_1 : Field.t;
  field_2 : Field.t;
  field_3 : Field.t;
  dv : str;
  expiry_factor : str;
  expiry : date;
  value_factor : str;
  value : decimal
}.

Definition line_pattern : list nat := [3; 1; 6; 11; 11; 1; 4; 10]%nat.
Definition bar_pattern : list nat := [3; 1; 1; 4; 10; 5; 10; 10]%nat.

(** [{"info": g[:-1], "dv": g[-1]}]. *)
Definition line_field (g : str) : result Field.t :=
  c <- index_last g ;;
  Ok (Field.mk (slice_to_neg 1 g) (VStr [c])).

Definition __get_info_from_line (line_ : str) : result code_info :=
  let match_ := re_search line_pattern line_ in
  g1 <- group match_ 1 ;;
  g2 <- group match_ 2 ;;
  g3 <- group match_ 3 ;;
  f1 <- line_field g3 ;;
  g4 <- group match_ 4 ;;
  f2 <- line_field g4 ;;
  g5 <- group match_ 5 ;;
  f3 <- line_field g5 ;;
  g6 <- group match_ 6 ;;
  g7 <- group match_ 7 ;;
  e <- __get_expiry g7 ;;
  g8 <- group match_ 8 ;;
  v <- __convert_value_factor g8 ;;
  Ok {| type := line; bank := g1; currency := g2;
        field_1 := f1; field_2 := f2; field_3 := f3;
        dv := g6; expiry_factor := g7; expiry := e;
        value_factor := g8; value := v |}.

Definition __get_info_from_bar (bar_ : str) : result code_info :=
  let match_ := re_search bar_pattern bar_ in
  g1 <- group match_ 1 ;;
  g2 <- group match_ 2 ;;
  g3 <- group match_ 3 ;;
  g4 <- group match_ 4 ;;
  e <- __get_expiry g4 ;;
  g5 <- group match_ 5 ;;
  v <- __convert_value_factor g5 ;;
  g6 <- group match_ 6 ;;
  dv1 <- __get_dv_module_10 (g1 ++ g2 ++ g6) ;;
  g7 <- group match_ 7 ;;
  dv2 <- __get_dv_module_10 g7 ;;
  g8 <- group match_ 8 ;;
  dv3 <- __get_dv_module_10 g8 ;;
  Ok {| type := bar; bank := g1; currency := g2; dv := g3;
        expiry_factor := g4; expiry := e;
        value_factor := g5; value := v;
        field_1 := Field.mk g6 (VInt dv1);
        field_2 := Field.mk g7 (VInt dv2);
        field_3 := Field.mk g8 (VInt dv3) |}.

(** [getters.get(code["type"])(code["value"])]. *)
Definition __get_info_from_code (code : Match.t) : result code_info :=
  match Match.type code with
  | line => __get_info_from_line (Match.value code)
  | bar => __get_info_from_bar (Match.value code)
  end.

(** [FebrabanCode(bar_code)]: the object is its [__code_info]. *)
Definition FebrabanCode (bar_code : obj) : result code_info :=
  m <- __code_match bar_code ;;
  __get_info_from_code m.

Definition get_code_info (self : code_info) : code_info := self.

(* ================================================================== *)
(** ** Encoder and validator *)
(* ================================================================== *)

Definition get_bar (self : code_info) : str :=
  bank self ++ currency self ++ dv self ++ expiry_factor self
  ++ value_factor self
  ++ Field.info (field_1 self) ++ Field.info (field_2 self)
  ++ Field.info (field_3 self).

Definition get_line (self : code_info) (formatted : bool) : str :=
  if formatted then
    bank self ++ currency self
    ++ slice_to 1 (Field.info (field_1 self)) ++ lit "."
    ++ slice_from 1 (Field.info (field_1 self))
    ++ format (Field.dv (field_1 self)) ++ lit " "
    ++ slice_to 5 (Field.info (field_2 self)) ++ lit "."
    ++ slice_from 5 (Field.info (field_2 self))
    ++ format (Field.dv (field_2 self)) ++ lit " "
    ++ slice_to 5 (Field.info (field_3 self)) ++ lit "."
    ++ slice_from 5 (Field.info (field_3 self))
    ++ format (Field.dv (field_3 self)) ++ lit " "
    ++ dv self ++ lit " "
    ++ expiry_factor self ++ value_factor self
  else
    bank self ++ currency self
    ++ Field.info (field_1 self) ++ format (Field.dv (field_1 self))
    ++ Field.info (field_2 self) ++ format (Field.dv (field_2 self))
    ++ Field.info (field_3 self) ++ format (Field.dv (field_3 self))
    ++ dv self ++ expiry_factor self ++ value_factor self.

Definition validate (self : code_info) : result bool :=
  let dv1_string := bank self ++ currency self ++ Field.info (field_1 self) in
  c1 <- __get_dv_module_10 dv1_string ;;
  s1 <- int (Field.dv (field_1 self)) ;;
  let dv1_is_valid := c1 =? s1 in
  c2 <- __get_dv_module_10 (Field.info (field_2 self)) ;;
  s2 <- int (Field.dv (field_2 self)) ;;
  let dv2_is_valid := c2 =? s2 in
  c3 <- __get_dv_module_10 (Field.info (field_3 self)) ;;
  s3 <- int (Field.dv (field_3 self)) ;;
  let dv3_is_valid := c3 =? s3 in
  let bar_ := get_bar self in
  c <- __get_dv_module_11 (slice_to 4 bar_ ++ slice_from 5 bar_) ;;
  s <- int (VStr (dv self)) ;;
  let dv_line_is_valid := c =? s in
  if negb (forallb (fun b => b)
             [dv1_is_valid; dv2_is_valid; dv3_is_valid; dv_line_is_valid])
  then Ok false
  else Ok true.

(* ================================================================== *)
(** ** Closed forms of the loops, and the reference definitions *)
(* ================================================================== *)

Definition all_decimal (s : str) : Prop := forallb isdecimal s = true.

Definition digit_value (c : ascii) : Z := Z.of_nat (code c) - 48.

(** Value of a string of decimal digits read in base ten. *)
Definition digits_value (s : str) : Z :=
  fold_left (fun acc c => 10 * acc + digit_value c) s 0.

(** *** Modulo 10 *)

(** [multipliers[count]]. *)
Definition weight10 (count : nat) : Z := if Nat.even count then 2 else 1.

Definition contribution10 (d m : Z) : Z :=
  let product := d * m in
  if product <? 10 then product else product / 10 + product mod 10.

(** The loop of [__get_dv_module_10] with the multiplier computed from
    [count] instead of looked up. *)
Fixpoint dv10_fold (items : str) (count : nat) (total : Z) : result Z :=
  match items with
  | [] => Ok total
  | digit :: items' =>
      d <- int_char digit ;;
      dv10_fold items' (S count) (total + contribution10 d (weight10 count))
  end.

Fixpoint sum10 (items : str) (count : nat) : Z :=
  match items with
  | [] => 0
  | digit :: items' =>
      contribution10 (digit_value digit) (weight10 count)
      + sum10 items' (S count)
  end.

Definition check10 (total : Z) : Z :=
  let remainder := total mod 10 in
  if negb (remainder =? 0) then 10 - remainder else 0.

(** The check digit [__get_dv_module_10] returns on a digit string. *)
Definition dv10 (number : str) : Z := check10 (sum10 (rev number) 0).

(** The reference definition: digits taken right to left, multiplied
    alternately by 2 and 1 starting with 2, a product of 10 or more replaced
    by the sum of its two decimal digits, contributions summed; the check
    digit is 0 when the sum is a multiple of 10 and 10 minus the remainder
    otherwise. *)
Fixpoint spec_mod10_sum (right_to_left : list Z) (double : bool) : Z :=
  match right_to_left with
  | [] => 0
  | d :: ds =>
      let product := if double then 2 * d else d in
      (if 10 <=? product then product / 10 + product mod 10 else product)
      + spec_mod10_sum ds (negb double)
  end.

Definition spec_checkDigitMod10 (digits : str) : Z :=
  let sum := spec_mod10_sum (map digit_value (rev digits)) true in
  if sum mod 10 =? 0 then 0 else 10 - sum mod 10.

(** *** Modulo 11 *)

(** The two assignments to [multiplier] at the end of the loop body. *)
Definition next_multiplier (multiplier : Z) : Z :=
  (if multiplier =? 2 then 10 else multiplier) - 1.

(** The loop of [__get_dv_module_11] over the characters themselves. *)
Fixpoint dv11_fold (digits : str) (total multiplier : Z) : result (Z * Z) :=
  match digits with
  | [] => Ok (total, multiplier)
  | c :: rest =>
      d <- int_char c ;;
      dv11_fold rest (total + d * multiplier) (next_multiplier multiplier)
  end.

(** The multiplier the loop holds when it reaches index [i]: the loop is run
    over [range(0, i)] and the second component of its state is read. *)
Definition multiplier_at (number : str) (i : nat) : result Z :=
  '(_, multiplier) <- dv11_loop number (seq 0 i) 0 4 ;;
  Ok multiplier.

(** The cycle the loop goes through: 4, 3, 2, 9, 8, 7, 6, 5, 4, 3, 2, 9, ... *)
Definition cycle11 (i : nat) : Z := nth (i mod 8) [4; 3; 2; 9; 8; 7; 6; 5] 0.

(** The cycle as the specification words it: start at 4, decrease by 1,
    wrap from 2 back to 10: 4, 3, 2, 10, 9, 8, 7, 6, 5, 4, 3, 2, 10, ... *)
Definition spec_cycle11 (i : nat) : Z :=
  nth (i mod 9) [4; 3; 2; 10; 9; 8; 7; 6; 5] 0.

(** Sum of the digits of [digits], taken left to right from index [i] on,
    each times the multiplier [w] gives its index. *)
Fixpoint weighted_sum (w : nat -> Z) (digits : str) (i : nat) : Z :=
  match digits with
  | [] => 0
  | c :: rest => digit_value c * w i + weighted_sum w rest (S i)
  end.

Definition check11 (total : Z) : Z :=
  let dv := 11 - total mod 11 in
  if (dv =? 0) || (dv =? 10) || (dv =? 11) then 1 else dv.

(** The check digit [__get_dv_module_11] returns on a digit string. *)
Definition dv11 (number : str) : Z := check11 (weighted_sum cycle11 number 0).

(** The check digit the specification's cycle would give. *)
Definition spec_checkDigitMod11 (number : str) : Z :=
  check11 (weighted_sum spec_cycle11 number 0).

(** *** Layouts *)

(** Consecutive slices of [s] with the given widths. *)
Fixpoint slices (widths : list nat) (s : str) : list str :=
  match widths with
  | [] => []
  | n :: widths' => firstn n s :: slices widths' (skipn n s)
  end.

Definition piece (widths : list nat) (i : nat) (s : str) : str :=
  nth i (slices widths s) [].

(** What [__get_expiry] and [__convert_value_factor] return on a factor of
    decimal digits. *)
Definition expiry_of (factor : str) : date :=
  Date (729304 + digits_value factor).

Definition value_of (factor : str) : decimal :=
  {| digits := digits_value factor; scale := 2 |}.

(** The record [__get_info_from_line] builds from a line of 47 decimal
    digits. *)
Definition line_info (L : str) : code_info :=
  let g := fun i => piece line_pattern i L in
  {| type := line;
     bank := g 0%nat;
     currency := g 1%nat;
     field_1 := Field.mk (firstn 5 (g 2%nat)) (VStr (skipn 5 (g 2%nat)));
     field_2 := Field.mk (firstn 10 (g 3%nat)) (VStr (skipn 10 (g 3%nat)));
     field_3 := Field.mk (firstn 10 (g 4%nat)) (VStr (skipn 10 (g 4%nat)));
     dv := g 5%nat;
     expiry_factor := g 6%nat;
     expiry := expiry_of (g 6%nat);
     value_factor := g 7%nat;
     value := value_of (g 7%nat) |}.

(** The record [__get_info_from_bar] builds from a bar of 44 decimal
    digits. *)
Definition bar_info (B : str) : code_info :=
  let g := fun i => piece bar_pattern i B in
  {| type := bar;
     bank := g 0%nat;
     currency := g 1%nat;
     dv := g 2%nat;
     expiry_factor := g 3%nat;
     expiry := expiry_of (g 3%nat);
     value_factor := g 4%nat;
     value := value_of (g 4%nat);
     field_1 := Field.mk (g 5%nat) (VInt (dv10 (g 0%nat ++ g 1%nat ++ g 5%nat)));
     field_2 := Field.mk (g 6%nat) (VInt (dv10 (g 6%nat)));
     field_3 := Field.mk (g 7%nat) (VInt (dv10 (g 7%nat))) |}.

(** The texts a record holds, in the order of the line encoding. *)
Definition line_pieces (r : code_info) : list str :=
  [bank r; currency r;
   Field.info (field_1 r); format (Field.dv (field_1 r));
   Field.info (field_2 r); format (Field.dv (field_2 r));
   Field.info (field_3 r); format (Field.dv (field_3 r));
   dv r; expiry_factor r; value_factor r].

(** The line layout as the specification words it: bank 3, currency 1,
    field 1 of 6 payload digits and 1 check digit, fields 2 and 3 of 10
    payload digits and 1 check digit, overall check digit 1, expiry factor
    4, value factor 10. *)
Definition spec_line_widths : list nat :=
  [3; 1; 6; 1; 10; 1; 10; 1; 1; 4; 10]%nat.

(** The line layout of [__get_info_from_line]: field 1 has 5 payload digits
    and 1 check digit. *)
Definition code_line_widths : list nat :=
  [3; 1; 5; 1; 10; 1; 10; 1; 1; 4; 10]%nat.

(** The extractor decomposes [L] into consecutive slices of the given
    widths. *)
Definition line_layout (widths : list nat) (L : str) : Prop :=
  exists r, __get_info_from_line L = Ok r
            /\ type r = line
            /\ line_pieces r = slices widths L.

(** The multiplier of every digit of [number] follows the cycle [w]. *)
Definition multipliers_follow (w : nat -> Z) (number : str) : Prop :=
  forall i, (i < length number)%nat -> multiplier_at number i = Ok (w i).

(** [s] without its character at index [i]. *)
Fixpoint delete_at (i : nat) (s : str) : str :=
  match s, i with
  | [], _ => []
  | _ :: s', O => s'
  | c :: s', S i' => c :: delete_at i' s'
  end.

(** What holds of the texts of a record that was constructed: they are
    decimal digits, the bar has 44 of them and every stored check digit is
    read by [int]. *)
Record well_formed (r : code_info) : Prop := {
  wf_bank : all_decimal (bank r);
  wf_currency : all_decimal (currency r);
  wf_info_1 : all_decimal (Field.info (field_1 r));
  wf_info_2 : all_decimal (Field.info (field_2 r));
  wf_info_3 : all_decimal (Field.info (field_3 r));
  wf_bar : all_decimal (get_bar r);
  wf_bar_length : length (get_bar r) = 44%nat;
  wf_dv : exists s, int (VStr (dv r)) = Ok s;
  wf_dv_1 : exists s, int (Field.dv (field_1 r)) = Ok s;
  wf_dv_2 : exists s, int (Field.dv (field_2 r)) = Ok s;
  wf_dv_3 : exists s, int (Field.dv (field_3 r)) = Ok s
}.

(** *** Relations between strings and between records *)

(** [s] and [s'] are the same but for one character. *)
Definition differ_once (s s' : str) : Prop :=
  exists pre c c' post,
    s = pre ++ c :: post /\ s' = pre ++ c' :: post /\ c <> c'.

(** Two records hold the same texts, date and amount, and their field check
    digits print alike; the type and the representation of the field check
    digits ([str] or [int]) may differ. *)
Definition same_texts (r r' : code_info) : Prop :=
  bank r = bank r' /\ currency r = currency r' /\ dv r = dv r'
  /\ expiry_factor r = expiry_factor r' /\ expiry r = expiry r'
  /\ value_factor r = value_factor r' /\ value r = value r'
  /\ Field.info (field_1 r) = Field.info (field_1 r')
  /\ Field.info (field_2 r) = Field.info (field_2 r')
  /\ Field.info (field_3 r) = Field.info (field_3 r')
  /\ format (Field.dv (field_1 r)) = format (Field.dv (field_1 r'))
  /\ format (Field.dv (field_2 r)) = format (Field.dv (field_2 r'))
  /\ format (Field.dv (field_3 r)) = format (Field.dv (field_3 r')).

(** A line of 47 characters with the separators of
    [get_line(formatted=True)]: groups of 5 and 5, 5 and 6, 5 and 6
    characters joined by a dot, then 1 and 14 characters, all separated by
    blanks. *)
Definition with_separators (L : str) : str :=
  firstn 5 L ++ lit "." ++ firstn 5 (skipn 5 L) ++ lit " "
  ++ firstn 5 (skipn 10 L) ++ lit "." ++ firstn 6 (skipn 15 L) ++ lit " "
  ++ firstn 5 (skipn 21 L) ++ lit "." ++ firstn 6 (skipn 26 L) ++ lit " "
  ++ firstn 1 (skipn 32 L) ++ lit " " ++ skipn 33 L.

(** The texts of a record have the widths of the line layout and are
    decimal digits; the date and the amount are those of the factors; a
    field check digit reads as an [int] the way its print does. *)
Definition valid_texts (r : code_info) : Prop :=
  map (@length ascii) (line_pieces r) = code_line_widths
  /\ Forall all_decimal (line_pieces r)
  /\ expiry r = expiry_of (expiry_factor r)
  /\ value r = value_of (value_factor r)
  /\ int (Field.dv (field_1 r)) = int_str (format (Field.dv (field_1 r)))
  /\ int (Field.dv (field_2 r)) = int_str (format (Field.dv (field_2 r)))
  /\ int (Field.dv (field_3 r)) = int_str (format (Field.dv (field_3 r))).

(** The record of type line with the texts of [r], its field check digits
    being the texts [r] prints for them. *)
Definition as_line (r : code_info) : code_info :=
  {| type := line;
     bank := bank r;
     currency := currency r;
     field_1 := Field.mk (Field.info (field_1 r))
                  (VStr (format (Field.dv (field_1 r))));
     field_2 := Field.mk (Field.info (field_2 r))
                  (VStr (format (Field.dv (field_2 r))));
     field_3 := Field.mk (Field.info (field_3 r))
                  (VStr (format (Field.dv (field_3 r))));
     dv := dv r;
     expiry_factor := expiry_factor r;
     expiry := expiry r;
     value_factor := value_factor r;
     value := value r |}.

(** The record of type bar with the texts of [r], its field check digits
    being computed anew. *)
Definition as_bar (r : code_info) : code_info :=
  {| type := bar;
     bank := bank r;
     currency := currency r;
     dv := dv r;
     expiry_factor := expiry_factor r;
     expiry := expiry r;
     value_factor := value_factor r;
     value := value r;
     field_1 := Field.mk (Field.info (field_1 r))
                  (VInt (dv10 (bank r ++ currency r
                               ++ Field.info (field_1 r))));
     field_2 := Field.mk (Field.info (field_2 r))
                  (VInt (dv10 (Field.info (field_2 r))));
     field_3 := Field.mk (Field.info (field_3 r))
                  (VInt (dv10 (Field.info (field_3 r)))) |}.

(* ================================================================== *)
(** ** Sample codes *)
(* ================================================================== *)

Definition sample_bar : str := lit "00193373700000001000500940144816060680935031".
Definition sample_line : str :=
  lit "00190500954014481606906809350314337370000000100".

Example dv10_sample : __get_dv_module_10 (lit "001905009") = Ok 5.
Proof. reflexivity. Qed.

Example dv11_sample :
  __get_dv_module_11 (lit "0019373700000001000500940144816060680935031") = Ok 3.
Proof. reflexivity. Qed.

Example sample_bar_valid :
  bind (FebrabanCode (VStr sample_bar)) validate = Ok true.
Proof. vm_compute. reflexivity. Qed.

Example sample_line_valid :
  bind (FebrabanCode (VStr (lit "00190.50095 40144.816069 06809.350314 3 37370000000100"))) validate
  = Ok true.
Proof. vm_compute. reflexivity. Qed.

Example sample_bar_to_line :
  bind (FebrabanCode (VStr sample_bar)) (fun r => Ok (get_line r false))
  = Ok sample_line.
Proof. vm_compute. reflexivity. Qed.

(* ================================================================== *)
(** ** Characters, digits and the runtime fragment *)
(* ================================================================== *)

Ltac run := cbn [bind] in *.

Lemma bind_ret {A} (m : result A) : bind m (fun a => Ok a) = m.
Proof. now destruct m. Qed.

Lemma bind_assoc {A B C} (m : result A) (f : A -> result B) (g : B -> result C) :
  bind (bind m f) g = bind m (fun a => bind (f a) g).
Proof. now destruct m. Qed.

Lemma all_decimal_cons c s :
  all_decimal (c :: s) <-> isdecimal c = true /\ all_decimal s.
Proof. unfold all_decimal; cbn; now rewrite andb_true_iff. Qed.

Lemma all_decimal_app s t :
  all_decimal (s ++ t) <-> all_decimal s /\ all_decimal t.
Proof. unfold all_decimal; now rewrite forallb_app, andb_true_iff. Qed.

Lemma all_decimal_rev s : all_decimal s -> all_decimal (rev s).
Proof.
  unfold all_decimal; rewrite !forallb_forall; intros H c Hc.
  apply H, in_rev, Hc.
Qed.

Lemma all_decimal_firstn n s : all_decimal s -> all_decimal (firstn n s).
Proof.
  intros H; rewrite <- (firstn_skipn n s) in H.
  now apply all_decimal_app in H.
Qed.

Lemma all_decimal_skipn n s : all_decimal s -> all_decimal (skipn n s).
Proof.
  intros H; rewrite <- (firstn_skipn n s) in H.
  now apply all_decimal_app in H.
Qed.

Lemma isdecimal_isdigit c : isdecimal c = true -> isdigit c = true.
Proof. unfold isdigit; now intros ->. Qed.

Lemma int_char_decimal c :
  isdecimal c = true -> int_char c = Ok (digit_value c).
Proof. unfold int_char; now intros ->. Qed.

Lemma digit_value_range c :
  isdecimal c = true -> 0 <= digit_value c <= 9.
Proof.
  unfold isdecimal, digit_value; rewrite andb_true_iff, !Nat.leb_le; lia.
Qed.

Create HintDb digits.
#[local] Hint Resolve all_decimal_rev all_decimal_firstn all_decimal_skipn
  isdecimal_isdigit : digits.

(* ================================================================== *)
(** ** Modulo 10 *)
(* ================================================================== *)

Lemma list_mul_succ {A} (xs : list A) n :
  list_mul xs (S n) = xs ++ list_mul xs n.
Proof. reflexivity. Qed.

Lemma weight10_SS n : weight10 (S (S n)) = weight10 n.
Proof. reflexivity. Qed.

Lemma getitem_multipliers k : forall i,
  (i < 2 * k)%nat -> getitem (list_mul [2; 1] k) i = Ok (weight10 i).
Proof.
  induction k as [|k IH]; intros i Hi; [lia|].
  rewrite list_mul_succ.
  destruct i as [|[|i]]; try reflexivity.
  rewrite weight10_SS; cbn [app]; unfold getitem; cbn [nth_error].
  apply IH; lia.
Qed.

Lemma dv10_loop_fold k : forall items count total,
  (count + length items <= 2 * k)%nat ->
  dv10_loop (list_mul [2; 1] k) items count total = dv10_fold items count total.
Proof.
  induction items as [|c items IH]; intros count total Hlen; [reflexivity|].
  cbn [dv10_loop dv10_fold]; cbn [length] in Hlen.
  destruct (int_char c) as [d|e]; run; [|reflexivity].
  rewrite getitem_multipliers by lia; run.
  apply IH; lia.
Qed.

Lemma enough_multipliers n : (n <= 2 * ((n + 1) / 2))%nat.
Proof.
  pose proof (Nat.div_mod_eq (n + 1) 2).
  pose proof (Nat.mod_upper_bound (n + 1) 2).
  lia.
Qed.

(** The lookup [multipliers[count]] never leaves the list. *)
Lemma get_dv_module_10_fold number :
  __get_dv_module_10 number
  = (total <- dv10_fold (rev number) 0 0 ;; Ok (check10 total)).
Proof.
  unfold __get_dv_module_10, reversed.
  rewrite dv10_loop_fold; [reflexivity|].
  cbn [Nat.add]; rewrite length_rev; apply enough_multipliers.
Qed.

Lemma dv10_fold_app xs : forall ys count total,
  dv10_fold (xs ++ ys) count total
  = (t <- dv10_fold xs count total ;; dv10_fold ys (count + length xs) t).
Proof.
  induction xs as [|c xs IH]; intros ys count total; cbn [app dv10_fold length].
  - run; now rewrite Nat.add_0_r.
  - destruct (int_char c) as [d|e]; run; [|reflexivity].
    rewrite IH; now rewrite Nat.add_succ_comm.
Qed.

Lemma dv10_fold_decimal items : forall count total,
  all_decimal items ->
  dv10_fold items count total = Ok (total + sum10 items count).
Proof.
  induction items as [|c items IH]; intros count total H; cbn [dv10_fold sum10].
  - now rewrite Z.add_0_r.
  - apply all_decimal_cons in H as [Hc H].
    rewrite (int_char_decimal _ Hc); run.
    rewrite IH by assumption; f_equal; lia.
Qed.

Lemma get_dv_module_10_decimal number :
  all_decimal number -> __get_dv_module_10 number = Ok (dv10 number).
Proof.
  intros H; rewrite get_dv_module_10_fold.
  rewrite dv10_fold_decimal by auto with digits; reflexivity.
Qed.

Lemma check10_range total : 0 <= check10 total <= 9.
Proof.
  unfold check10; pose proof (Z.mod_pos_bound total 10 ltac:(lia)).
  destruct (total mod 10 =? 0) eqn:E; cbn [negb]; lia.
Qed.

Lemma sum10_spec items : forall count,
  sum10 items count
  = spec_mod10_sum (map digit_value items) (Nat.even count).
Proof.
  induction items as [|c items IH]; intros count; [reflexivity|].
  cbn [sum10 map spec_mod10_sum]; rewrite IH.
  rewrite Nat.even_succ, <- Nat.negb_even; f_equal.
  unfold contribution10, weight10.
  destruct (Nat.even count); cbn zeta.
  - rewrite (Z.mul_comm _ 2).
    destruct (2 * digit_value c <? 10) eqn:E, (10 <=? 2 * digit_value c) eqn:F;
      try reflexivity; lia.
  - rewrite Z.mul_1_r.
    destruct (digit_value c <? 10) eqn:E, (10 <=? digit_value c) eqn:F;
      try reflexivity; lia.
Qed.

Lemma dv10_spec number : dv10 number = spec_checkDigitMod10 number.
Proof.
  unfold dv10, spec_checkDigitMod10, check10; rewrite sum10_spec.
  cbn [Nat.even]; cbn zeta.
  now destruct (_ mod 10 =? 0).
Qed.

(** C7: on every digit string [__get_dv_module_10] returns what the
    reference definition gives (digits right to left, multipliers 2, 1, 2,
    ... from the rightmost digit, a product of 10 or more replaced by the
    sum of its two decimal digits, 0 for a sum that is a multiple of 10 and
    10 minus the remainder otherwise), and the result is a single digit
    between 0 and 9. *)
Theorem C7_mod10_refines_reference (number : str) :
  all_decimal number ->
  __get_dv_module_10 number = Ok (spec_checkDigitMod10 number)
  /\ 0 <= spec_checkDigitMod10 number <= 9.
Proof.
  intros H; rewrite <- dv10_spec; split.
  - now apply get_dv_module_10_decimal.
  - apply check10_range.
Qed.

Lemma C7_witness :
  __get_dv_module_10 (lit "001905009")
  = Ok (spec_checkDigitMod10 (lit "001905009"))
  /\ 0 <= spec_checkDigitMod10 (lit "001905009") <= 9.
Proof. apply (C7_mod10_refines_reference (lit "001905009")); reflexivity. Defined.

Lemma contribution10_zero m : contribution10 0 m = 0.
Proof. reflexivity. Qed.

(** C10: prepending a zero does not change the modulo-10 check digit: the
    digits are weighted by their position counted from the right and the
    new leftmost digit contributes nothing.  The equation holds for every
    string; on a digit string both sides are the check digit. *)
Theorem C10_mod10_leading_zero (s : str) :
  __get_dv_module_10 (lit "0" ++ s) = __get_dv_module_10 s.
Proof.
  rewrite !get_dv_module_10_fold.
  change (rev (lit "0" ++ s)) with (rev s ++ lit "0").
  rewrite dv10_fold_app, bind_assoc.
  destruct (dv10_fold (rev s) 0 0) as [t|e]; run; [|reflexivity].
  cbn [lit list_ascii_of_string dv10_fold].
  change (int_char "0"%char) with (Ok (A:=Z) 0); run.
  now rewrite contribution10_zero, Z.add_0_r.
Qed.

(* ================================================================== *)
(** ** Modulo 11 *)
(* ================================================================== *)

Lemma getitem_middle {A} (pre : list A) c post :
  getitem (pre ++ c :: post) (length pre) = Ok c.
Proof.
  unfold getitem; rewrite nth_error_app2 by lia.
  now rewrite Nat.sub_diag.
Qed.

(** Running the loop over the indices of a segment of [number] is running
    it over the characters of the segment. *)
Lemma dv11_loop_fold mid : forall pre post total multiplier,
  dv11_loop (pre ++ mid ++ post) (seq (length pre) (length mid))
    total multiplier
  = dv11_fold mid total multiplier.
Proof.
  induction mid as [|c mid IH]; intros pre post total multiplier;
    [reflexivity|].
  cbn [length seq dv11_loop dv11_fold app].
  rewrite getitem_middle; run.
  destruct (int_char c) as [d|e]; run; [|reflexivity].
  specialize (IH (pre ++ [c]) post).
  rewrite <- app_assoc, length_app, Nat.add_1_r in IH; cbn [app] in IH.
  apply IH.
Qed.

Lemma dv11_loop_prefix number i total multiplier :
  (i <= length number)%nat ->
  dv11_loop number (seq 0 i) total multiplier
  = dv11_fold (firstn i number) total multiplier.
Proof.
  intros Hi.
  pose proof (dv11_loop_fold (firstn i number) [] (skipn i number)
                total multiplier) as H.
  cbn [app length] in H; rewrite firstn_skipn, length_firstn in H.
  now rewrite Nat.min_l in H by assumption.
Qed.

Lemma get_dv_module_11_fold number :
  __get_dv_module_11 number
  = ('(total, _) <- dv11_fold number 0 4 ;; Ok (check11 total)).
Proof.
  unfold __get_dv_module_11.
  rewrite dv11_loop_prefix, firstn_all by lia.
  destruct (dv11_fold number 0 4) as [[total m]|e]; run; [|reflexivity].
  unfold check11; cbn zeta.
  now destruct (_ || _).
Qed.

Lemma iter_next_multiplier_rounds q r :
  (r < 8)%nat ->
  Nat.iter (r + 8 * q) next_multiplier 4 = nth r [4; 3; 2; 9; 8; 7; 6; 5] 0.
Proof.
  intros Hr; rewrite Nat.iter_add.
  replace (Nat.iter (8 * q) next_multiplier 4) with 4.
  - do 8 (destruct r as [|r]; [reflexivity|]); lia.
  - induction q as [|q IH]; [reflexivity|].
    replace (8 * S q)%nat with (8 + 8 * q)%nat by lia.
    rewrite Nat.iter_add, <- IH; reflexivity.
Qed.

Lemma iter_next_multiplier_cycle i :
  Nat.iter i next_multiplier 4 = cycle11 i.
Proof.
  unfold cycle11.
  rewrite <- (iter_next_multiplier_rounds (i / 8))
    by (apply Nat.mod_upper_bound; lia).
  f_equal; rewrite Nat.add_comm; apply Nat.div_mod_eq.
Qed.

Lemma weighted_sum_shift multiplier digits : forall k,
  weighted_sum (fun j => Nat.iter j next_multiplier (next_multiplier multiplier))
    digits k
  = weighted_sum (fun j => Nat.iter j next_multiplier multiplier) digits (S k).
Proof.
  induction digits as [|c digits IH]; intros k; [reflexivity|].
  cbn [weighted_sum]; rewrite IH, <- Nat.iter_succ_r; reflexivity.
Qed.

Lemma dv11_fold_decimal digits : forall total multiplier,
  all_decimal digits ->
  dv11_fold digits total multiplier
  = Ok (total
        + weighted_sum (fun j => Nat.iter j next_multiplier multiplier) digits 0,
        Nat.iter (length digits) next_multiplier multiplier).
Proof.
  induction digits as [|c digits IH]; intros total multiplier H.
  - cbn; now rewrite Z.add_0_r.
  - apply all_decimal_cons in H as [Hc H].
    cbn [dv11_fold]; rewrite (int_char_decimal _ Hc); run.
    rewrite IH, weighted_sum_shift by assumption.
    cbn [weighted_sum length]; rewrite Nat.iter_succ_r.
    change (Nat.iter 0 next_multiplier multiplier) with multiplier.
    now rewrite Z.add_assoc.
Qed.

Lemma weighted_sum_ext w w' digits : forall i,
  (forall j, w j = w' j) -> weighted_sum w digits i = weighted_sum w' digits i.
Proof.
  induction digits as [|c digits IH]; intros i H; [reflexivity|].
  cbn [weighted_sum]; now rewrite H, (IH (S i)).
Qed.

Lemma dv11_fold_cycle digits :
  all_decimal digits ->
  dv11_fold digits 0 4
  = Ok (weighted_sum cycle11 digits 0, cycle11 (length digits)).
Proof.
  intros H; rewrite dv11_fold_decimal by assumption.
  rewrite iter_next_multiplier_cycle; cbn [Z.add].
  f_equal; f_equal.
  apply weighted_sum_ext, iter_next_multiplier_cycle.
Qed.

Lemma get_dv_module_11_decimal number :
  all_decimal number -> __get_dv_module_11 number = Ok (dv11 number).
Proof.
  intros H; rewrite get_dv_module_11_fold, dv11_fold_cycle by assumption.
  reflexivity.
Qed.

Lemma check11_range total : 1 <= check11 total <= 9.
Proof.
  unfold check11; pose proof (Z.mod_pos_bound total 11 ltac:(lia)).
  cbn zeta.
  destruct (11 - total mod 11 =? 0) eqn:E0,
           (11 - total mod 11 =? 10) eqn:E1,
           (11 - total mod 11 =? 11) eqn:E2; cbn [orb]; lia.
Qed.

(** C6: on every digit string [__get_dv_module_11] returns a value between
    1 and 9; it is 1 whenever [11 - total % 11] is 0, 10 or 11 and that
    difference otherwise, so it is never 0, 10 or 11. *)
Theorem C6_mod11_range (number : str) :
  all_decimal number ->
  exists total multiplier result,
    dv11_loop number (seq 0 (length number)) 0 4 = Ok (total, multiplier)
    /\ __get_dv_module_11 number = Ok result
    /\ 1 <= result <= 9
    /\ (let raw := 11 - total mod 11 in
        (raw = 0 \/ raw = 10 \/ raw = 11 -> result = 1)
        /\ (raw <> 0 -> raw <> 10 -> raw <> 11 -> result = raw)).
Proof.
  intros H.
  exists (weighted_sum cycle11 number 0), (cycle11 (length number)),
    (dv11 number).
  repeat split.
  - rewrite dv11_loop_prefix, firstn_all by lia. now apply dv11_fold_cycle.
  - now apply get_dv_module_11_decimal.
  - apply check11_range.
  - apply check11_range.
  - unfold dv11, check11; cbn zeta.
    intros [-> | [-> | ->]]; reflexivity.
  - unfold dv11, check11; cbn zeta; intros H0 H10 H11.
    apply Z.eqb_neq in H0, H10, H11; now rewrite H0, H10, H11.
Qed.

Lemma C6_witness :
  exists total multiplier result,
    dv11_loop (lit "0001") (seq 0 (length (lit "0001"))) 0 4
    = Ok (total, multiplier)
    /\ __get_dv_module_11 (lit "0001") = Ok result
    /\ 1 <= result <= 9
    /\ (let raw := 11 - total mod 11 in
        (raw = 0 \/ raw = 10 \/ raw = 11 -> result = 1)
        /\ (raw <> 0 -> raw <> 10 -> raw <> 11 -> result = raw)).
Proof. apply (C6_mod11_range (lit "0001")); reflexivity. Defined.

Lemma multiplier_at_cycle number i :
  all_decimal number -> (i <= length number)%nat ->
  multiplier_at number i = Ok (cycle11 i).
Proof.
  intros H Hi; unfold multiplier_at.
  rewrite dv11_loop_prefix, dv11_fold_cycle by auto with digits; run.
  now rewrite length_firstn, Nat.min_l.
Qed.

(** C1 as stated fails: on "0001" the fourth digit is multiplied by 9, where
    the stated cycle has 10. *)
Lemma C1_counterexample : ~ multipliers_follow spec_cycle11 (lit "0001").
Proof.
  intros H; specialize (H 3%nat ltac:(cbn; lia)).
  vm_compute in H; discriminate.
Qed.

(** C1, amended: on every digit string the digits are processed left to
    right and the multiplier of the i-th digit follows the cycle
    4, 3, 2, 9, 8, 7, 6, 5, 4, 3, 2, 9, ...: it starts at 4, decreases by 1
    for each digit and wraps from 2 back to 9. *)
Theorem C1_mod11_multiplier_cycle (number : str) :
  all_decimal number ->
  multipliers_follow cycle11 number
  /\ dv11_loop number (seq 0 (length number)) 0 4
     = Ok (weighted_sum cycle11 number 0, cycle11 (length number))
  /\ __get_dv_module_11 number
     = Ok (check11 (weighted_sum cycle11 number 0)).
Proof.
  intros H; repeat split.
  - intros i Hi; apply multiplier_at_cycle; [assumption | lia].
  - rewrite dv11_loop_prefix, firstn_all by lia. now apply dv11_fold_cycle.
  - now apply get_dv_module_11_decimal.
Qed.

Lemma C1_witness :
  multipliers_follow cycle11 sample_bar
  /\ dv11_loop sample_bar (seq 0 (length sample_bar)) 0 4
     = Ok (weighted_sum cycle11 sample_bar 0, cycle11 (length sample_bar))
  /\ __get_dv_module_11 sample_bar
     = Ok (check11 (weighted_sum cycle11 sample_bar 0)).
Proof. apply (C1_mod11_multiplier_cycle sample_bar); reflexivity. Defined.

(* ================================================================== *)
(** ** [int], [float] and dates on digit strings *)
(* ================================================================== *)

Lemma int_digits_decimal s : forall acc,
  all_decimal s ->
  int_digits s acc
  = Ok (fold_left (fun a c => 10 * a + digit_value c) s acc).
Proof.
  induction s as [|c s IH]; intros acc H; [reflexivity|].
  apply all_decimal_cons in H as [Hc H].
  cbn [int_digits fold_left]; rewrite (int_char_decimal _ Hc).
  now apply IH.
Qed.

Lemma fold_digits_bound s : forall acc,
  all_decimal s -> 0 <= acc ->
  0 <= fold_left (fun a c => 10 * a + digit_value c) s acc
    < (acc + 1) * 10 ^ Z.of_nat (length s).
Proof.
  induction s as [|c s IH]; intros acc H Hacc.
  - cbn; lia.
  - apply all_decimal_cons in H as [Hc H].
    pose proof (digit_value_range _ Hc) as Hd.
    cbn [fold_left length].
    specialize (IH (10 * acc + digit_value c) H ltac:(lia)).
    rewrite Nat2Z.inj_succ, Z.pow_succ_r by lia.
    assert (0 < 10 ^ Z.of_nat (length s)) by (apply Z.pow_pos_nonneg; lia).
    nia.
Qed.

Lemma digits_value_bound s :
  all_decimal s -> 0 <= digits_value s < 10 ^ Z.of_nat (length s).
Proof.
  intros H; pose proof (fold_digits_bound s 0 H ltac:(lia)) as B.
  unfold digits_value; lia.
Qed.

Lemma int_str_decimal s :
  all_decimal s -> s <> [] -> int_str s = Ok (digits_value s).
Proof.
  intros H Hne; destruct s as [|c s]; [congruence|].
  unfold int_str; now apply int_digits_decimal.
Qed.

Lemma get_expiry_decimal factor :
  all_decimal factor -> length factor = 4%nat ->
  __get_expiry factor = Ok (expiry_of factor).
Proof.
  intros H Hlen; unfold __get_expiry.
  pose proof (digits_value_bound _ H) as B; rewrite Hlen in B.
  change (10 ^ Z.of_nat 4) with 10000 in B.
  rewrite int_str_decimal by (try assumption; now destruct factor); run.
  unfold timedelta, timedelta_max_days.
  replace (Z.abs (digits_value factor) <=? 999999999) with true
    by (symmetry; apply Z.leb_le; lia); run.
  unfold date_add, base_date, date_max_ordinal.
  replace (1 <=? 729304 + digits_value factor) with true
    by (symmetry; apply Z.leb_le; lia).
  replace (729304 + digits_value factor <=? 3652059) with true
    by (symmetry; apply Z.leb_le; lia).
  reflexivity.
Qed.

Lemma decimal_not_dot c : isdecimal c = true -> (code c =? 46)%nat = false.
Proof.
  unfold isdecimal; rewrite andb_true_iff, !Nat.leb_le, Nat.eqb_neq; lia.
Qed.

Lemma split_dot_decimal w f :
  all_decimal w -> split_dot (w ++ lit "." ++ f) = Some (w, f).
Proof.
  induction w as [|c w IH]; intros H; [reflexivity|].
  apply all_decimal_cons in H as [Hc H].
  cbn [app split_dot]; rewrite (decimal_not_dot _ Hc).
  cbn [app] in IH; now rewrite IH.
Qed.

Lemma convert_value_factor_decimal factor :
  all_decimal factor -> (2 <= length factor)%nat ->
  __convert_value_factor factor = Ok (value_of factor).
Proof.
  intros H Hlen; unfold __convert_value_factor, slice_to_neg, slice_from_neg.
  unfold float_str; rewrite split_dot_decimal by auto with digits.
  rewrite firstn_skipn, H.
  destruct (length factor =? 0)%nat eqn:E;
    [apply Nat.eqb_eq in E; lia|]; cbn [negb andb].
  rewrite int_digits_decimal by assumption; run.
  unfold value_of, digits_value; do 2 f_equal.
  rewrite length_skipn; lia.
Qed.

(* ================================================================== *)
(** ** The patterns on strings of their exact width *)
(* ================================================================== *)

Lemma match_group_some n s g rest :
  match_group n s = Some (g, rest) ->
  g = firstn n s /\ rest = skipn n s /\ all_decimal g /\ (n <= length s)%nat.
Proof.
  unfold match_group.
  destruct (length (firstn n s) =? n)%nat eqn:E; [|discriminate].
  destruct (forallb isdecimal (firstn n s)) eqn:F; [|discriminate].
  cbn; intros [= <- <-]; repeat split; try assumption.
  apply Nat.eqb_eq in E; rewrite length_firstn in E; lia.
Qed.

Lemma match_group_decimal n s :
  all_decimal (firstn n s) -> (n <= length s)%nat ->
  match_group n s = Some (firstn n s, skipn n s).
Proof.
  intros H Hn; unfold match_group; rewrite H.
  rewrite length_firstn, Nat.min_l, Nat.eqb_refl by assumption; reflexivity.
Qed.

Lemma match_here_some widths : forall s gs,
  match_here widths s = Some gs ->
  gs = slices widths s
  /\ all_decimal (firstn (list_sum widths) s)
  /\ (list_sum widths <= length s)%nat.
Proof.
  induction widths as [|n widths IH]; intros s gs; cbn [match_here].
  - intros [= <-]; split; [reflexivity|]; split; [reflexivity|cbn; lia].
  - destruct (match_group n s) as [[g rest]|] eqn:G; [|discriminate].
    destruct (match_here widths rest) as [gs'|] eqn:M; [|discriminate].
    intros [= <-].
    apply match_group_some in G as (-> & -> & Hg & Hn).
    apply IH in M as (-> & Hd & Hlen).
    rewrite length_skipn in Hlen.
    change (list_sum (n :: widths)) with (n + list_sum widths)%nat.
    cbn [slices]; split; [reflexivity|]; split; [|lia].
    rewrite <- (firstn_skipn n (firstn (n + list_sum widths) s)).
    rewrite firstn_firstn, Nat.min_l by lia.
    rewrite skipn_firstn_comm.
    replace (n + list_sum widths - n)%nat with (list_sum widths) by lia.
    now apply all_decimal_app.
Qed.

Lemma match_here_decimal widths : forall s,
  all_decimal s -> (list_sum widths <= length s)%nat ->
  match_here widths s = Some (slices widths s).
Proof.
  induction widths as [|n widths IH]; intros s H Hlen; [reflexivity|].
  change (list_sum (n :: widths)) with (n + list_sum widths)%nat in Hlen.
  cbn [match_here slices].
  rewrite match_group_decimal by (auto with digits; lia).
  rewrite IH; [reflexivity | auto with digits |].
  rewrite length_skipn; lia.
Qed.

Lemma re_search_short widths : forall s,
  (length s < list_sum widths)%nat -> re_search widths s = None.
Proof.
  induction s as [|c s IH]; intros Hlen; cbn [re_search].
  - destruct (match_here widths []) as [gs|] eqn:M; [|reflexivity].
    apply match_here_some in M as (_ & _ & M); lia.
  - destruct (match_here widths (c :: s)) as [gs|] eqn:M.
    + apply match_here_some in M as (_ & _ & M); lia.
    + apply IH; cbn [length] in Hlen; lia.
Qed.

(** On a string exactly as long as the pattern, the search succeeds iff
    every character is a decimal digit, and the groups are the slices. *)
Lemma re_search_exact widths s :
  length s = list_sum widths ->
  re_search widths s
  = if forallb isdecimal s then Some (slices widths s) else None.
Proof.
  intros Hlen.
  destruct (forallb isdecimal s) eqn:D.
  - destruct s; cbn [re_search];
      now rewrite match_here_decimal by (try assumption; lia).
  - destruct s as [|c s]; [discriminate|].
    cbn [re_search].
    destruct (match_here widths (c :: s)) as [gs|] eqn:M.
    + apply match_here_some in M as (_ & M & _).
      rewrite <- Hlen, firstn_all in M.
      unfold all_decimal in M; congruence.
    + apply re_search_short; cbn [length] in Hlen; lia.
Qed.

Lemma last_of_slice n (g : str) :
  length g = S n -> exists c, nth_error g n = Some c /\ skipn n g = [c].
Proof.
  intros Hlen.
  assert (length (skipn n g) = 1%nat) as H1 by (rewrite length_skipn; lia).
  destruct (skipn n g) as [|c [|]] eqn:Hs; try discriminate.
  exists c; split; [|reflexivity].
  rewrite <- (firstn_skipn n g), Hs.
  rewrite nth_error_app2; rewrite length_firstn, Nat.min_l by lia;
    [now rewrite Nat.sub_diag | lia].
Qed.

Lemma line_field_slice n g :
  length g = S n ->
  line_field g = Ok (Field.mk (firstn n g) (VStr (skipn n g))).
Proof.
  intros Hlen; destruct (last_of_slice n g Hlen) as (c & Hc & Hs).
  unfold line_field, index_last, getitem, slice_to_neg.
  destruct g as [|x g]; [discriminate|].
  rewrite Hlen, Hs.
  replace (S n - 1)%nat with n by lia.
  now rewrite Hc.
Qed.

Ltac slice_length :=
  repeat rewrite ?length_app, ?length_firstn, ?length_skipn; cbn [length]; lia.

Lemma get_info_from_line_exact L :
  length L = 47%nat ->
  __get_info_from_line L
  = if forallb isdecimal L then Ok (line_info L) else Raise AttributeError.
Proof.
  intros Hlen; unfold __get_info_from_line.
  rewrite re_search_exact by (rewrite Hlen; reflexivity).
  destruct (forallb isdecimal L) eqn:D; [|reflexivity].
  cbn [line_pattern slices group getitem nth_error Nat.sub]; run.
  rewrite (line_field_slice 5) by slice_length; run.
  rewrite (line_field_slice 10) by slice_length; run.
  rewrite (line_field_slice 10) by slice_length; run.
  rewrite get_expiry_decimal by (auto 10 with digits; slice_length); run.
  rewrite convert_value_factor_decimal
    by (auto 10 with digits; slice_length); run.
  reflexivity.
Qed.

Lemma get_info_from_bar_exact B :
  length B = 44%nat ->
  __get_info_from_bar B
  = if forallb isdecimal B then Ok (bar_info B) else Raise AttributeError.
Proof.
  intros Hlen; unfold __get_info_from_bar.
  rewrite re_search_exact by (rewrite Hlen; reflexivity).
  destruct (forallb isdecimal B) eqn:D; [|reflexivity].
  cbn [bar_pattern slices group getitem nth_error Nat.sub]; run.
  rewrite get_expiry_decimal by (auto 10 with digits; slice_length); run.
  rewrite convert_value_factor_decimal
    by (auto 10 with digits; slice_length); run.
  rewrite !get_dv_module_10_decimal
    by (repeat (apply all_decimal_app; split); auto 10 with digits); run.
  reflexivity.
Qed.

(* ================================================================== *)
(** ** Construction *)
(* ================================================================== *)

Ltac decimal_tac :=
  repeat (apply all_decimal_app; split); auto 12 with digits.

Lemma code_match_str s :
  __code_match (VStr s)
  = if (length (clean s) =? 47)%nat then Ok (Match.mk line (clean s))
    else if (length (clean s) =? 44)%nat then Ok (Match.mk bar (clean s))
    else Raise ValueError.
Proof.
  unfold __code_match, valid_length; cbn [dict_get].
  now destruct (length (clean s) =? 47)%nat, (length (clean s) =? 44)%nat.
Qed.

Lemma FebrabanCode_str s :
  FebrabanCode (VStr s)
  = if (length (clean s) =? 47)%nat then
      if forallb isdecimal (clean s) then Ok (line_info (clean s))
      else Raise AttributeError
    else if (length (clean s) =? 44)%nat then
      if forallb isdecimal (clean s) then Ok (bar_info (clean s))
      else Raise AttributeError
    else Raise ValueError.
Proof.
  unfold FebrabanCode; rewrite code_match_str.
  destruct (length (clean s) =? 47)%nat eqn:E47.
  - apply Nat.eqb_eq in E47; run; unfold __get_info_from_code; cbn.
    now apply get_info_from_line_exact.
  - destruct (length (clean s) =? 44)%nat eqn:E44; [|reflexivity].
    apply Nat.eqb_eq in E44; run; unfold __get_info_from_code; cbn.
    now apply get_info_from_bar_exact.
Qed.

(** A record that was constructed is [line_info] or [bar_info] of a string
    of decimal digits of the right length. *)
Lemma FebrabanCode_inv code r :
  FebrabanCode code = Ok r ->
  exists c, all_decimal c
    /\ ((length c = 47%nat /\ r = line_info c)
        \/ (length c = 44%nat /\ r = bar_info c)).
Proof.
  destruct code as [s| |]; try discriminate.
  rewrite FebrabanCode_str; intros H; exists (clean s).
  destruct (length (clean s) =? 47)%nat eqn:E47.
  - destruct (forallb isdecimal (clean s)) eqn:D; [|discriminate].
    injection H as <-; apply Nat.eqb_eq in E47; auto.
  - destruct (length (clean s) =? 44)%nat eqn:E44; [|discriminate].
    destruct (forallb isdecimal (clean s)) eqn:D; [|discriminate].
    injection H as <-; apply Nat.eqb_eq in E44; auto.
Qed.

Lemma clean_decimal s : all_decimal s -> clean s = s.
Proof.
  unfold clean; induction s as [|c s IH]; intros H; [reflexivity|].
  apply all_decimal_cons in H as [Hc H].
  cbn [filter]; rewrite (isdecimal_isdigit _ Hc); now rewrite IH.
Qed.

Lemma FebrabanCode_bar B :
  length B = 44%nat -> all_decimal B ->
  FebrabanCode (VStr B) = Ok (bar_info B).
Proof.
  intros Hlen H; rewrite FebrabanCode_str, clean_decimal, Hlen by assumption.
  cbn [Nat.eqb]; now rewrite H.
Qed.

Lemma FebrabanCode_line L :
  length L = 47%nat -> all_decimal L ->
  FebrabanCode (VStr L) = Ok (line_info L).
Proof.
  intros Hlen H; rewrite FebrabanCode_str, clean_decimal, Hlen by assumption.
  cbn [Nat.eqb]; now rewrite H.
Qed.

(** C8: the matcher keeps the characters for which [isdigit] holds and
    classifies by the length of what is left: 47 is a line, 44 is a bar, any
    other length raises [ValueError] (in particular 43 and 48), and only
    those lengths make the construction raise [ValueError]; an argument that
    is not a string raises [AttributeError]. *)
Theorem C8_matcher_classification (code : obj) :
  match code with
  | VStr s =>
      let cleaned := filter isdigit s in
      let n := length cleaned in
      __code_match code
      = (if (n =? 47)%nat then Ok (Match.mk line cleaned)
         else if (n =? 44)%nat then Ok (Match.mk bar cleaned)
         else Raise ValueError)
      /\ (__code_match code = Raise ValueError <-> n <> 44%nat /\ n <> 47%nat)
      /\ (FebrabanCode code = Raise ValueError <-> n <> 44%nat /\ n <> 47%nat)
  | _ =>
      __code_match code = Raise AttributeError
      /\ FebrabanCode code = Raise AttributeError
  end.
Proof.
  destruct code as [s| |]; [|split; reflexivity..].
  cbn zeta; fold (clean s).
  rewrite FebrabanCode_str, code_match_str.
  destruct (length (clean s) =? 47)%nat eqn:E47;
    [apply Nat.eqb_eq in E47 | apply Nat.eqb_neq in E47];
    (destruct (length (clean s) =? 44)%nat eqn:E44;
     [apply Nat.eqb_eq in E44 | apply Nat.eqb_neq in E44]);
    destruct (forallb isdecimal (clean s));
    (split; [reflexivity|]); split; split;
    try discriminate; try tauto; try lia; try reflexivity.
Qed.

Lemma C8_witness :
  __code_match (VStr (firstn 43 sample_bar)) = Raise ValueError
  /\ __code_match (VStr sample_line) = Ok (Match.mk line sample_line).
Proof.
  split.
  - apply (proj1 (proj2 (C8_matcher_classification
                           (VStr (firstn 43 sample_bar))))).
    split; vm_compute; discriminate.
  - exact (proj1 (C8_matcher_classification (VStr sample_line))).
Defined.

Example matcher_43 :
  FebrabanCode (VStr (lit "0019337370000000100050094014481606068093503"))
  = Raise ValueError.
Proof. reflexivity. Qed.

Example matcher_48 :
  FebrabanCode (VStr (lit "001933737000000010005009401448160606809350311111"))
  = Raise ValueError.
Proof. reflexivity. Qed.

Example matcher_strips :
  __code_match (VStr (lit "00190.50095 40144.816069 06809.350314 3 37370000000100"))
  = Ok (Match.mk line sample_line).
Proof. reflexivity. Qed.

(* ================================================================== *)
(** ** Layouts *)
(* ================================================================== *)

(** C2 as stated fails: the sample line is accepted by the matcher, and its
    first field has 5 payload digits, not 6. *)
Lemma C2_counterexample :
  __code_match (VStr sample_line) = Ok (Match.mk line sample_line)
  /\ ~ line_layout spec_line_widths sample_line.
Proof.
  split; [reflexivity|].
  intros (r & Hr & _ & Hp).
  vm_compute in Hr; injection Hr as <-.
  vm_compute in Hp; discriminate.
Qed.

(** C2, amended: every string of 47 decimal digits is decomposed by the
    extractor into consecutive slices: bank (3), currency (1), field 1 block
    of 6 digits (5 payload and 1 trailing check digit), field 2 block of 11
    (10 and 1), field 3 block of 11 (10 and 1), overall check digit (1),
    expiry factor (4) and value factor (10). *)
Theorem C2_line_layout (L : str) :
  length L = 47%nat -> all_decimal L ->
  __code_match (VStr L) = Ok (Match.mk line L)
  /\ line_layout code_line_widths L.
Proof.
  intros Hlen H; split.
  - rewrite code_match_str, clean_decimal, Hlen by assumption; reflexivity.
  - exists (line_info L); split; [|split; [reflexivity|]].
    + rewrite get_info_from_line_exact by assumption.
      unfold all_decimal in H; now rewrite H.
    + unfold line_pieces, line_info, piece, code_line_widths.
      cbn [line_pattern slices nth bank currency field_1 field_2 field_3 dv
           expiry_factor value_factor Field.info Field.dv format].
      rewrite !firstn_firstn, !skipn_firstn_comm, !skipn_skipn.
      reflexivity.
Qed.

Lemma C2_witness :
  __code_match (VStr sample_line) = Ok (Match.mk line sample_line)
  /\ line_layout code_line_widths sample_line.
Proof. apply (C2_line_layout sample_line); reflexivity. Defined.

(* ================================================================== *)
(** ** Encoder round trips *)
(* ================================================================== *)

Lemma concat_slices widths : forall s,
  concat (slices widths s) = firstn (list_sum widths) s.
Proof.
  induction widths as [|n widths IH]; intros s; [reflexivity|].
  change (list_sum (n :: widths)) with (n + list_sum widths)%nat.
  cbn [slices concat]; rewrite IH.
  rewrite <- (firstn_skipn n (firstn (n + list_sum widths) s)).
  rewrite firstn_firstn, Nat.min_l, skipn_firstn_comm by lia.
  now replace (n + list_sum widths - n)%nat with (list_sum widths) by lia.
Qed.

Lemma concat_slices_exact widths s :
  length s = list_sum widths -> concat (slices widths s) = s.
Proof. intros H; rewrite concat_slices, <- H; apply firstn_all. Qed.

Lemma get_bar_bar_info B : length B = 44%nat -> get_bar (bar_info B) = B.
Proof.
  intros Hlen.
  rewrite <- (concat_slices_exact bar_pattern B) at 2 by assumption.
  unfold get_bar, bar_info, piece.
  cbn [bar_pattern slices nth bank currency field_1 field_2 field_3 dv
       expiry_factor value_factor Field.info concat].
  now rewrite app_nil_r.
Qed.

Lemma get_line_line_info L :
  length L = 47%nat -> get_line (line_info L) false = L.
Proof.
  intros Hlen.
  rewrite <- (concat_slices_exact line_pattern L) at 2 by assumption.
  unfold get_line, line_info, piece.
  cbn [line_pattern slices nth bank currency field_1 field_2 field_3 dv
       expiry_factor value_factor Field.info Field.dv format concat].
  rewrite !(app_assoc (firstn _ (firstn _ _)) (skipn _ (firstn _ _))).
  now rewrite !firstn_skipn, app_nil_r.
Qed.

(** C5: re-encoding what was constructed gives the input back: [get_bar]
    after construction from 44 decimal digits, and [get_line(False)] after
    construction from 47 decimal digits. *)
Theorem C5_roundtrip (s : str) :
  all_decimal s ->
  (length s = 44%nat ->
   exists r, FebrabanCode (VStr s) = Ok r /\ type r = bar /\ get_bar r = s)
  /\ (length s = 47%nat ->
      exists r, FebrabanCode (VStr s) = Ok r /\ type r = line
                /\ get_line r false = s).
Proof.
  intros H; split; intros Hlen.
  - exists (bar_info s); split; [now apply FebrabanCode_bar|].
    split; [reflexivity | now apply get_bar_bar_info].
  - exists (line_info s); split; [now apply FebrabanCode_line|].
    split; [reflexivity | now apply get_line_line_info].
Qed.

Lemma C5_witness :
  (exists r, FebrabanCode (VStr sample_bar) = Ok r /\ type r = bar
             /\ get_bar r = sample_bar)
  /\ (exists r, FebrabanCode (VStr sample_line) = Ok r /\ type r = line
                /\ get_line r false = sample_line).
Proof.
  split.
  - apply (proj1 (C5_roundtrip sample_bar eq_refl)); reflexivity.
  - apply (proj2 (C5_roundtrip sample_line eq_refl)); reflexivity.
Defined.

(* ================================================================== *)
(** ** Check digits of a bar, and validation *)
(* ================================================================== *)

(** C4: the record constructed from 44 decimal digits holds the slices of
    the input as its texts, and its three field check digits are computed:
    the one of field 1 by [__get_dv_module_10] over bank, currency and the
    payload of field 1, those of fields 2 and 3 over their payload alone. *)
Theorem C4_bar_check_digits (B : str) :
  length B = 44%nat -> all_decimal B ->
  exists r d1 d2 d3,
    FebrabanCode (VStr B) = Ok r
    /\ slices bar_pattern B
       = [bank r; currency r; dv r; expiry_factor r; value_factor r;
          Field.info (field_1 r); Field.info (field_2 r);
          Field.info (field_3 r)]
    /\ __get_dv_module_10 (bank r ++ currency r ++ Field.info (field_1 r))
       = Ok d1
    /\ Field.dv (field_1 r) = VInt d1
    /\ __get_dv_module_10 (Field.info (field_2 r)) = Ok d2
    /\ Field.dv (field_2 r) = VInt d2
    /\ __get_dv_module_10 (Field.info (field_3 r)) = Ok d3
    /\ Field.dv (field_3 r) = VInt d3.
Proof.
  intros Hlen H.
  exists (bar_info B),
    (dv10 (piece bar_pattern 0 B ++ piece bar_pattern 1 B
           ++ piece bar_pattern 5 B)),
    (dv10 (piece bar_pattern 6 B)), (dv10 (piece bar_pattern 7 B)).
  split; [now apply FebrabanCode_bar|].
  split; [reflexivity|].
  unfold bar_info, piece.
  cbn [bar_pattern slices nth bank currency field_1 field_2 field_3
       Field.info Field.dv].
  repeat split; apply get_dv_module_10_decimal; decimal_tac.
Qed.

Lemma C4_witness :
  exists r d1 d2 d3,
    FebrabanCode (VStr sample_bar) = Ok r
    /\ slices bar_pattern sample_bar
       = [bank r; currency r; dv r; expiry_factor r; value_factor r;
          Field.info (field_1 r); Field.info (field_2 r);
          Field.info (field_3 r)]
    /\ __get_dv_module_10 (bank r ++ currency r ++ Field.info (field_1 r))
       = Ok d1
    /\ Field.dv (field_1 r) = VInt d1
    /\ __get_dv_module_10 (Field.info (field_2 r)) = Ok d2
    /\ Field.dv (field_2 r) = VInt d2
    /\ __get_dv_module_10 (Field.info (field_3 r)) = Ok d3
    /\ Field.dv (field_3 r) = VInt d3.
Proof. apply (C4_bar_check_digits sample_bar); reflexivity. Defined.

Lemma delete_at_slices i : forall s,
  slice_to i s ++ slice_from (S i) s = delete_at i s.
Proof.
  unfold slice_to, slice_from.
  induction i as [|i IH]; intros [|c s]; try reflexivity.
  cbn [firstn skipn app delete_at]; now rewrite IH.
Qed.

Lemma length_delete_at i : forall s,
  (i < length s)%nat -> length (delete_at i s) = (length s - 1)%nat.
Proof.
  induction i as [|i IH]; intros [|c s] Hi; cbn [length] in *; try lia.
  - cbn; lia.
  - cbn [delete_at length]; rewrite IH by lia; lia.
Qed.

Lemma all_decimal_delete_at i s : all_decimal s -> all_decimal (delete_at i s).
Proof.
  intros H; rewrite <- delete_at_slices; unfold slice_to, slice_from.
  decimal_tac.
Qed.

(** [validate] once its eight intermediate results are known. *)
Lemma validate_ok self c1 s1 c2 s2 c3 s3 c4 s4 :
  __get_dv_module_10 (bank self ++ currency self ++ Field.info (field_1 self))
  = Ok c1 ->
  int (Field.dv (field_1 self)) = Ok s1 ->
  __get_dv_module_10 (Field.info (field_2 self)) = Ok c2 ->
  int (Field.dv (field_2 self)) = Ok s2 ->
  __get_dv_module_10 (Field.info (field_3 self)) = Ok c3 ->
  int (Field.dv (field_3 self)) = Ok s3 ->
  __get_dv_module_11 (delete_at 4 (get_bar self)) = Ok c4 ->
  int (VStr (dv self)) = Ok s4 ->
  validate self = Ok ((c1 =? s1) && (c2 =? s2) && (c3 =? s3) && (c4 =? s4)).
Proof.
  intros H1 I1 H2 I2 H3 I3 H4 I4; unfold validate.
  rewrite delete_at_slices, H1, I1, H2, I2, H3, I3, H4, I4; run.
  cbn [forallb].
  now destruct (c1 =? s1), (c2 =? s2), (c3 =? s3), (c4 =? s4).
Qed.

Ltac int_slice :=
  eexists; cbn [int]; apply int_str_decimal;
  [decimal_tac
  | intros E; apply (f_equal (@length ascii)) in E; revert E; slice_length].

Lemma line_info_well_formed L :
  length L = 47%nat -> all_decimal L -> well_formed (line_info L).
Proof.
  intros Hlen H; constructor; unfold get_bar, line_info, piece;
    cbn [line_pattern slices nth bank currency field_1 field_2 field_3 dv
         expiry_factor value_factor Field.info Field.dv];
    try solve [decimal_tac | slice_length | int_slice].
Qed.

Lemma bar_info_well_formed B :
  length B = 44%nat -> all_decimal B -> well_formed (bar_info B).
Proof.
  intros Hlen H; constructor; unfold get_bar, bar_info, piece;
    cbn [bar_pattern slices nth bank currency field_1 field_2 field_3 dv
         expiry_factor value_factor Field.info Field.dv];
    try solve [decimal_tac | slice_length | int_slice
              | eexists; reflexivity].
Qed.

Lemma constructed_well_formed code r :
  FebrabanCode code = Ok r -> well_formed r.
Proof.
  intros H; apply FebrabanCode_inv in H as (c & Hc & [[Hl ->] | [Hl ->]]).
  - now apply line_info_well_formed.
  - now apply bar_info_well_formed.
Qed.

Lemma bar_info_check_digits B :
  length B = 44%nat -> all_decimal B ->
  let r := bar_info B in
  exists d1 d2 d3,
    (__get_dv_module_10 (bank r ++ currency r ++ Field.info (field_1 r))
     = Ok d1 /\ Field.dv (field_1 r) = VInt d1)
    /\ (__get_dv_module_10 (Field.info (field_2 r)) = Ok d2
        /\ Field.dv (field_2 r) = VInt d2)
    /\ (__get_dv_module_10 (Field.info (field_3 r)) = Ok d3
        /\ Field.dv (field_3 r) = VInt d3).
Proof.
  intros Hlen H r.
  exists (dv10 (bank r ++ currency r ++ Field.info (field_1 r))),
    (dv10 (Field.info (field_2 r))), (dv10 (Field.info (field_3 r))).
  destruct (bar_info_well_formed B Hlen H).
  repeat split; try reflexivity; apply get_dv_module_10_decimal;
    subst r; decimal_tac.
Qed.

(** C3: on every record that was constructed, [validate] returns a boolean
    and raises nothing; it is [True] exactly when the four comparisons hold:
    the modulo-10 digit of bank, currency and the payload of field 1 against
    the stored check digit of field 1, the modulo-10 digits of the payloads
    of fields 2 and 3 against theirs, and the modulo-11 digit of the 43
    digits left of the 44-digit bar once its character at index 4 is
    deleted against the stored overall check digit. *)
Theorem C3_validate_iff (code : obj) (r : code_info) :
  FebrabanCode code = Ok r ->
  exists c1 s1 c2 s2 c3 s3 c4 s4 b,
    __get_dv_module_10 (bank r ++ currency r ++ Field.info (field_1 r))
    = Ok c1
    /\ int (Field.dv (field_1 r)) = Ok s1
    /\ __get_dv_module_10 (Field.info (field_2 r)) = Ok c2
    /\ int (Field.dv (field_2 r)) = Ok s2
    /\ __get_dv_module_10 (Field.info (field_3 r)) = Ok c3
    /\ int (Field.dv (field_3 r)) = Ok s3
    /\ length (get_bar r) = 44%nat
    /\ length (delete_at 4 (get_bar r)) = 43%nat
    /\ __get_dv_module_11 (delete_at 4 (get_bar r)) = Ok c4
    /\ int (VStr (dv r)) = Ok s4
    /\ validate r = Ok b
    /\ (b = true <-> c1 = s1 /\ c2 = s2 /\ c3 = s3 /\ c4 = s4).
Proof.
  intros H; destruct (constructed_well_formed _ _ H)
    as [Hb Hc H1 H2 H3 Hbar Hlen [s4 I4] [s1 I1] [s2 I2] [s3 I3]].
  assert (__get_dv_module_10
            (bank r ++ currency r ++ Field.info (field_1 r))
          = Ok (dv10 (bank r ++ currency r ++ Field.info (field_1 r))))
    as E1 by (apply get_dv_module_10_decimal; decimal_tac).
  pose proof (get_dv_module_10_decimal _ H2) as E2.
  pose proof (get_dv_module_10_decimal _ H3) as E3.
  pose proof (get_dv_module_11_decimal _
                (all_decimal_delete_at 4 _ Hbar)) as E4.
  do 8 eexists; eexists.
  do 7 (split; [eassumption|]).
  split; [rewrite length_delete_at, Hlen by lia; reflexivity|].
  do 2 (split; [eassumption|]).
  split; [eapply validate_ok; eassumption|].
  rewrite !andb_true_iff, !Z.eqb_eq; tauto.
Qed.

Lemma C3_witness :
  exists c1 s1 c2 s2 c3 s3 c4 s4 b,
    let r := line_info sample_line in
    __get_dv_module_10 (bank r ++ currency r ++ Field.info (field_1 r))
    = Ok c1
    /\ int (Field.dv (field_1 r)) = Ok s1
    /\ __get_dv_module_10 (Field.info (field_2 r)) = Ok c2
    /\ int (Field.dv (field_2 r)) = Ok s2
    /\ __get_dv_module_10 (Field.info (field_3 r)) = Ok c3
    /\ int (Field.dv (field_3 r)) = Ok s3
    /\ length (get_bar r) = 44%nat
    /\ length (delete_at 4 (get_bar r)) = 43%nat
    /\ __get_dv_module_11 (delete_at 4 (get_bar r)) = Ok c4
    /\ int (VStr (dv r)) = Ok s4
    /\ validate r = Ok b
    /\ (b = true <-> c1 = s1 /\ c2 = s2 /\ c3 = s3 /\ c4 = s4).
Proof.
  apply (C3_validate_iff (VStr sample_line) (line_info sample_line)).
  vm_compute; reflexivity.
Defined.

(** C9: on a record constructed from a bar the three modulo-10 comparisons
    of [validate] always hold, the stored field check digits being the
    values [__get_dv_module_10] gives on the same texts; [validate] is
    [True] exactly when the modulo-11 comparison holds. *)
Theorem C9_bar_validate (code : obj) (r : code_info) :
  FebrabanCode code = Ok r -> type r = bar ->
  exists d1 d2 d3 c4 s4 b,
    (__get_dv_module_10 (bank r ++ currency r ++ Field.info (field_1 r))
     = Ok d1 /\ int (Field.dv (field_1 r)) = Ok d1)
    /\ (__get_dv_module_10 (Field.info (field_2 r)) = Ok d2
        /\ int (Field.dv (field_2 r)) = Ok d2)
    /\ (__get_dv_module_10 (Field.info (field_3 r)) = Ok d3
        /\ int (Field.dv (field_3 r)) = Ok d3)
    /\ __get_dv_module_11 (delete_at 4 (get_bar r)) = Ok c4
    /\ int (VStr (dv r)) = Ok s4
    /\ validate r = Ok b
    /\ (b = true <-> c4 = s4).
Proof.
  intros H Ht.
  pose proof (constructed_well_formed _ _ H) as W.
  apply FebrabanCode_inv in H as (B & HB & [[Hl ->] | [Hl ->]]);
    [discriminate|].
  destruct (bar_info_check_digits B Hl HB)
    as (d1 & d2 & d3 & [E1 V1] & [E2 V2] & [E3 V3]).
  destruct W as [_ _ _ _ _ Hbar _ [s4 I4] _ _ _].
  pose proof (get_dv_module_11_decimal _
                (all_decimal_delete_at 4 _ Hbar)) as E4.
  assert (forall f d, Field.dv f = VInt d -> int (Field.dv f) = Ok d)
    as Hint by (intros f d ->; reflexivity).
  exists d1, d2, d3, (dv11 (delete_at 4 (get_bar (bar_info B)))), s4,
    (dv11 (delete_at 4 (get_bar (bar_info B))) =? s4).
  do 3 (split; [split; auto|]).
  split; [assumption|]; split; [assumption|]; split.
  - rewrite (validate_ok _ _ _ _ _ _ _ _ _
               E1 (Hint _ _ V1) E2 (Hint _ _ V2) E3 (Hint _ _ V3) E4 I4).
    now rewrite !Z.eqb_refl.
  - apply Z.eqb_eq.
Qed.

Lemma C9_witness :
  exists d1 d2 d3 c4 s4 b,
    let r := bar_info sample_bar in
    (__get_dv_module_10 (bank r ++ currency r ++ Field.info (field_1 r))
     = Ok d1 /\ int (Field.dv (field_1 r)) = Ok d1)
    /\ (__get_dv_module_10 (Field.info (field_2 r)) = Ok d2
        /\ int (Field.dv (field_2 r)) = Ok d2)
    /\ (__get_dv_module_10 (Field.info (field_3 r)) = Ok d3
        /\ int (Field.dv (field_3 r)) = Ok d3)
    /\ __get_dv_module_11 (delete_at 4 (get_bar r)) = Ok c4
    /\ int (VStr (dv r)) = Ok s4
    /\ validate r = Ok b
    /\ (b = true <-> c4 = s4).
Proof.
  apply (C9_bar_validate (VStr sample_bar) (bar_info sample_bar)).
  - vm_compute; reflexivity.
  - reflexivity.
Defined.

(** The sample bar carries the overall check digit 3, which is what the
    cycle of the code gives on its other 43 digits; the cycle with a
    multiplier 10 gives another digit. *)
Example sample_cycles :
  dv11 (delete_at 4 sample_bar) = 3
  /\ spec_checkDigitMod11 (delete_at 4 sample_bar) <> 3.
Proof. split; vm_compute; [reflexivity | discriminate]. Qed.

(* ================================================================== *)
(** ** Errors of the checksum engine *)
(* ================================================================== *)

Lemma forallb_rev {A} (f : A -> bool) l : forallb f (rev l) = forallb f l.
Proof.
  induction l as [|x l IH]; [reflexivity|].
  cbn [rev forallb]; rewrite forallb_app, IH; cbn [forallb].
  now rewrite andb_true_r, andb_comm.
Qed.

Lemma dv10_fold_not_decimal items : forall count total,
  forallb isdecimal items = false ->
  dv10_fold items count total = Raise ValueError.
Proof.
  induction items as [|c items IH]; intros count total H; [discriminate|].
  cbn [forallb dv10_fold] in *; unfold int_char.
  destruct (isdecimal c); run; [now apply IH | reflexivity].
Qed.

Lemma dv11_fold_not_decimal digits : forall total multiplier,
  forallb isdecimal digits = false ->
  dv11_fold digits total multiplier = Raise ValueError.
Proof.
  induction digits as [|c digits IH]; intros total multiplier H;
    [discriminate|].
  cbn [forallb dv11_fold] in *; unfold int_char.
  destruct (isdecimal c); run; [now apply IH | reflexivity].
Qed.

(** [__get_dv_module_10] returns a check digit on a string of decimal
    digits and raises [ValueError] on any other string; the lookup in
    [multipliers] never raises. *)
Theorem get_dv_module_10_total (number : str) :
  __get_dv_module_10 number
  = if forallb isdecimal number then Ok (dv10 number) else Raise ValueError.
Proof.
  destruct (forallb isdecimal number) eqn:D.
  - now apply get_dv_module_10_decimal.
  - rewrite get_dv_module_10_fold, dv10_fold_not_decimal;
      [reflexivity | now rewrite forallb_rev].
Qed.

(** [__get_dv_module_11] returns a check digit on a string of decimal
    digits and raises [ValueError] on any other string; the indexing of
    [number] never raises. *)
Theorem get_dv_module_11_total (number : str) :
  __get_dv_module_11 number
  = if forallb isdecimal number then Ok (dv11 number) else Raise ValueError.
Proof.
  destruct (forallb isdecimal number) eqn:D.
  - now apply get_dv_module_11_decimal.
  - now rewrite get_dv_module_11_fold, dv11_fold_not_decimal.
Qed.

(* ================================================================== *)
(** ** Outcomes of the construction *)
(* ================================================================== *)

(** The construction only looks at the characters the matcher keeps: two
    strings with the same digits give the same outcome. *)
Theorem FebrabanCode_digits_only (s s' : str) :
  clean s = clean s' -> FebrabanCode (VStr s) = FebrabanCode (VStr s').
Proof. intros H; now rewrite !FebrabanCode_str, H. Qed.

Lemma FebrabanCode_digits_only_witness :
  FebrabanCode
    (VStr (lit "00190.50095 40144.816069 06809.350314 3 37370000000100"))
  = FebrabanCode (VStr sample_line).
Proof.
  apply (FebrabanCode_digits_only
           (lit "00190.50095 40144.816069 06809.350314 3 37370000000100")
           sample_line).
  vm_compute; reflexivity.
Defined.

Lemma clean_idempotent s : clean (clean s) = clean s.
Proof.
  unfold clean; induction s as [|c s IH]; [reflexivity|].
  cbn [filter]; destruct (isdigit c) eqn:E; [|assumption].
  cbn [filter]; now rewrite E, IH.
Qed.


Example superscript_bar :
  let s := lit "0019337370000000100050094014481606068093503" ++ [ascii_of_nat 178] in
  length (clean s) = 44%nat
  /\ FebrabanCode (VStr s) = Raise AttributeError.
Proof. split; vm_compute; reflexivity. Qed.

(* ================================================================== *)
(** ** Invariants of a constructed record *)
(* ================================================================== *)

Lemma str_of_nat_digit k :
  (k < 10)%nat ->
  let c := ascii_of_nat (48 + k) in
  str_of_int (Z.of_nat k) = [c] /\ isdecimal c = true
  /\ int_str [c] = Ok (Z.of_nat k).
Proof.
  intros K.
  do 10 (destruct k as [|k]; [repeat split; vm_compute; reflexivity|]).
  lia.
Qed.

Lemma str_of_int_digit n :
  0 <= n <= 9 ->
  exists c, str_of_int n = [c] /\ isdecimal c = true
            /\ int_str [c] = Ok n.
Proof.
  intros H; exists (ascii_of_nat (48 + Z.to_nat n)).
  pose proof (str_of_nat_digit (Z.to_nat n) ltac:(lia)) as D.
  now rewrite Z2Nat.id in D by lia.
Qed.

Lemma line_info_valid_texts L :
  length L = 47%nat -> all_decimal L -> valid_texts (line_info L).
Proof.
  intros Hlen H; unfold valid_texts, line_pieces, line_info, piece.
  cbn [line_pattern slices nth bank currency field_1 field_2 field_3 dv
       expiry_factor value_factor expiry value Field.info Field.dv format
       map int].
  split; [|split].
  - unfold code_line_widths; repeat (f_equal; try slice_length).
  - repeat (apply Forall_cons; [decimal_tac|]); apply Forall_nil.
  - repeat split.
Qed.

Lemma bar_info_valid_texts B :
  length B = 44%nat -> all_decimal B -> valid_texts (bar_info B).
Proof.
  intros Hlen H.
  destruct (bar_info_check_digits B Hlen H)
    as (d1 & d2 & d3 & [E1 V1] & [E2 V2] & [E3 V3]).
  assert (forall s d, all_decimal s -> __get_dv_module_10 s = Ok d ->
                      0 <= d <= 9) as R.
  { intros s d Hs; rewrite get_dv_module_10_decimal by assumption.
    intros [= <-]; apply check10_range. }
  destruct (bar_info_well_formed B Hlen H)
    as [Wb Wc W1 W2 W3 _ _ _ _ _ _].
  apply R in E1; [|decimal_tac]; apply R in E2, E3; try assumption.
  destruct (str_of_int_digit d1 E1) as (c1 & S1 & D1 & I1).
  destruct (str_of_int_digit d2 E2) as (c2 & S2 & D2 & I2).
  destruct (str_of_int_digit d3 E3) as (c3 & S3 & D3 & I3).
  unfold valid_texts, line_pieces; rewrite V1, V2, V3.
  cbn [format int]; rewrite S1, S2, S3, I1, I2, I3.
  unfold bar_info, piece.
  cbn [bar_pattern slices nth bank currency field_1 field_2 field_3 dv
       expiry_factor value_factor expiry value Field.info Field.dv map].
  split; [|split].
  - unfold code_line_widths; repeat (f_equal; try slice_length).
  - repeat (apply Forall_cons;
            [first [solve [decimal_tac]
                   | apply all_decimal_cons; now split]|]).
    apply Forall_nil.
  - repeat split.
Qed.

(** Every record the constructor returns has texts of the widths 3, 1, 5,
    1, 10, 1, 10, 1, 1, 4 and 10 made of decimal digits, whichever encoding
    it came from; its date and amount are those of its factors. *)
Theorem constructed_valid_texts (code : obj) (r : code_info) :
  FebrabanCode code = Ok r -> valid_texts r.
Proof.
  intros H; apply FebrabanCode_inv in H as (c & Hc & [[Hl ->] | [Hl ->]]).
  - now apply line_info_valid_texts.
  - now apply bar_info_valid_texts.
Qed.

Lemma constructed_valid_texts_witness : valid_texts (bar_info sample_bar).
Proof.
  apply (constructed_valid_texts (VStr sample_bar) (bar_info sample_bar)).
  vm_compute; reflexivity.
Defined.

(* ================================================================== *)
(** ** Encodings of a constructed record *)
(* ================================================================== *)

(** A list of known length, as the list of its elements. *)
Ltac explode l H :=
  repeat (destruct l as [|? l]; cbn [length] in H; try discriminate H);
  clear H.

(** A record with valid texts, as the characters of its texts. *)
Ltac open_texts r H :=
  destruct r as [t b c [i1 d1] [i2 d2] [i3 d3] dv0 ef e vf v];
  destruct H as (Hl & Hd & He & Hv & I1 & I2 & I3);
  unfold line_pieces, code_line_widths in Hl, Hd;
  unfold get_line, get_bar, as_line, as_bar, same_texts;
  cbn [bank currency field_1 field_2 field_3 dv expiry_factor expiry
       value_factor value type Field.info Field.dv map] in *;
  set (f1 := format d1) in *; set (f2 := format d2) in *;
  set (f3 := format d3) in *;
  clearbody f1 f2 f3;
  injection Hl as L1 L2 L3 L4 L5 L6 L7 L8 L9 L10 L11.

Ltac explode_texts :=
  match goal with
  | L1 : length ?b = 3%nat, L2 : length ?c = 1%nat, L3 : length ?i1 = 5%nat,
    L4 : length ?f1 = 1%nat, L5 : length ?i2 = 10%nat,
    L6 : length ?f2 = 1%nat, L7 : length ?i3 = 10%nat,
    L8 : length ?f3 = 1%nat, L9 : length ?dv0 = 1%nat,
    L10 : length ?ef = 4%nat, L11 : length ?vf = 10%nat |- _ =>
      explode b L1; explode c L2; explode i1 L3; explode f1 L4;
      explode i2 L5; explode f2 L6; explode i3 L7; explode f3 L8;
      explode dv0 L9; explode ef L10; explode vf L11
  end.

Ltac texts_decimal :=
  repeat match goal with
         | H : Forall _ (_ :: _) |- _ =>
             apply Forall_cons_iff in H; destruct H as [? H]
         end.

Lemma valid_texts_line r :
  valid_texts r ->
  length (get_line r false) = 47%nat /\ all_decimal (get_line r false).
Proof.
  intros H; open_texts r H; split.
  - slice_length.
  - texts_decimal; decimal_tac.
Qed.


Lemma line_info_get_line r :
  valid_texts r -> line_info (get_line r false) = as_line r.
Proof.
  intros H; open_texts r H; subst e v; explode_texts.
  reflexivity.
Qed.


Lemma formatted_separators r :
  valid_texts r -> get_line r true = with_separators (get_line r false).
Proof.
  intros H; open_texts r H; explode_texts.
  reflexivity.
Qed.

Lemma clean_with_separators L :
  all_decimal L -> clean (with_separators L) = L.
Proof.
  intros H; unfold with_separators, clean; rewrite !filter_app.
  change (filter isdigit (lit ".")) with (@nil ascii).
  change (filter isdigit (lit " ")) with (@nil ascii).
  fold clean; rewrite !clean_decimal by decimal_tac.
  cbn [app]; clear H.
  do 33 (destruct L as [|? L]; [reflexivity|]); reflexivity.
Qed.

(** The formatted line of a constructed record is its unformatted line with
    three dots and four blanks inserted at fixed places, 54 characters in
    all; the matcher strips them again, so that constructing from the
    formatted line is constructing from the unformatted one. *)
Theorem formatted_line (code : obj) (r : code_info) :
  FebrabanCode code = Ok r ->
  get_line r true = with_separators (get_line r false)
  /\ length (get_line r true) = 54%nat
  /\ clean (get_line r true) = get_line r false
  /\ FebrabanCode (VStr (get_line r true))
     = FebrabanCode (VStr (get_line r false)).
Proof.
  intros H; apply constructed_valid_texts in H.
  destruct (valid_texts_line r H) as [Hlen Hdec].
  pose proof (formatted_separators r H) as E.
  assert (clean (get_line r true) = get_line r false) as C
    by (rewrite E; now apply clean_with_separators).
  repeat split; try assumption.
  - rewrite E; unfold with_separators.
    repeat rewrite ?length_app, ?length_firstn, ?length_skipn, ?Hlen.
    reflexivity.
  - apply FebrabanCode_digits_only.
    now rewrite C, clean_decimal.
Qed.

Lemma formatted_line_witness :
  let r := bar_info sample_bar in
  get_line r true = with_separators (get_line r false)
  /\ length (get_line r true) = 54%nat
  /\ clean (get_line r true) = get_line r false
  /\ FebrabanCode (VStr (get_line r true))
     = FebrabanCode (VStr (get_line r false)).
Proof.
  apply (formatted_line (VStr sample_bar) (bar_info sample_bar)).
  vm_compute; reflexivity.
Defined.

Example formatted_sample :
  get_line (bar_info sample_bar) true
  = lit "00190.50095 40144.816069 06809.350314 3 37370000000100".
Proof. vm_compute; reflexivity. Qed.

Lemma validate_as_line r : valid_texts r -> validate (as_line r) = validate r.
Proof.
  intros (_ & _ & _ & _ & I1 & I2 & I3).
  unfold validate, as_line, get_bar.
  cbn [bank currency field_1 field_2 field_3 dv expiry_factor
       value_factor Field.info Field.dv int].
  now rewrite <- I1, <- I2, <- I3.
Qed.

Lemma same_texts_as_line r : same_texts r (as_line r).
Proof. repeat split. Qed.

(** Conversion to the line encoding loses nothing: constructing again from
    the unformatted line of a constructed record gives a record of type
    line with the same texts, date and amount, the same bar and lines, and
    the same verdict of [validate]. *)
Theorem line_of_record_reparsed (code : obj) (r : code_info) :
  FebrabanCode code = Ok r ->
  exists r',
    FebrabanCode (VStr (get_line r false)) = Ok r'
    /\ type r' = line
    /\ same_texts r r'
    /\ get_bar r' = get_bar r
    /\ (forall formatted, get_line r' formatted = get_line r formatted)
    /\ validate r' = validate r.
Proof.
  intros H; apply constructed_valid_texts in H.
  destruct (valid_texts_line r H) as [Hlen Hdec].
  exists (as_line r); split.
  - rewrite FebrabanCode_line by assumption.
    now rewrite line_info_get_line.
  - split; [reflexivity|]; split; [apply same_texts_as_line|].
    split; [reflexivity|]; split; [now intros []|].
    now apply validate_as_line.
Qed.

Lemma line_of_record_reparsed_witness :
  let r := bar_info sample_bar in
  exists r',
    FebrabanCode (VStr (get_line r false)) = Ok r'
    /\ type r' = line
    /\ same_texts r r'
    /\ get_bar r' = get_bar r
    /\ (forall formatted, get_line r' formatted = get_line r formatted)
    /\ validate r' = validate r.
Proof.
  apply (line_of_record_reparsed (VStr sample_bar) (bar_info sample_bar)).
  vm_compute; reflexivity.
Defined.

(** The bar of a constructed record is its line rearranged: bank and
    currency, then the last 15 characters (overall check digit, expiry
    factor, value factor), then the three payloads without their check
    digits. *)
Theorem bar_from_line (code : obj) (r : code_info) :
  FebrabanCode code = Ok r ->
  let L := get_line r false in
  get_bar r
  = firstn 4 L ++ skipn 32 L ++ firstn 5 (skipn 4 L)
    ++ firstn 10 (skipn 10 L) ++ firstn 10 (skipn 21 L).
Proof.
  intros H; apply constructed_valid_texts in H.
  cbn zeta; open_texts r H; explode_texts; reflexivity.
Qed.

Lemma bar_from_line_witness :
  let L := get_line (line_info sample_line) false in
  get_bar (line_info sample_line)
  = firstn 4 L ++ skipn 32 L ++ firstn 5 (skipn 4 L)
    ++ firstn 10 (skipn 10 L) ++ firstn 10 (skipn 21 L).
Proof.
  apply (bar_from_line (VStr sample_line) (line_info sample_line)).
  vm_compute; reflexivity.
Defined.

(** The line of a constructed record is its bar rearranged, with the three
    field check digits inserted after their payloads. *)
Theorem line_from_bar (code : obj) (r : code_info) :
  FebrabanCode code = Ok r ->
  let B := get_bar r in
  get_line r false
  = firstn 4 B
    ++ firstn 5 (skipn 19 B) ++ format (Field.dv (field_1 r))
    ++ firstn 10 (skipn 24 B) ++ format (Field.dv (field_2 r))
    ++ skipn 34 B ++ format (Field.dv (field_3 r))
    ++ firstn 15 (skipn 4 B).
Proof.
  intros H; apply constructed_valid_texts in H.
  cbn zeta; open_texts r H; explode_texts; reflexivity.
Qed.

Lemma line_from_bar_witness :
  let r := bar_info sample_bar in
  let B := get_bar r in
  get_line r false
  = firstn 4 B
    ++ firstn 5 (skipn 19 B) ++ format (Field.dv (field_1 r))
    ++ firstn 10 (skipn 24 B) ++ format (Field.dv (field_2 r))
    ++ skipn 34 B ++ format (Field.dv (field_3 r))
    ++ firstn 15 (skipn 4 B).
Proof.
  apply (line_from_bar (VStr sample_bar) (bar_info sample_bar)).
  vm_compute; reflexivity.
Defined.

(* ================================================================== *)
(** ** Detection of a wrong digit *)
(* ================================================================== *)

Lemma digit_value_inj c c' : digit_value c = digit_value c' -> c = c'.
Proof.
  unfold digit_value, code; intros H.
  rewrite <- (ascii_nat_embedding c), <- (ascii_nat_embedding c').
  f_equal; lia.
Qed.

Lemma sum10_app xs : forall ys k,
  sum10 (xs ++ ys) k = sum10 xs k + sum10 ys (k + length xs).
Proof.
  induction xs as [|x xs IH]; intros ys k; cbn [app sum10 length].
  - now rewrite Nat.add_0_r.
  - rewrite IH, Nat.add_succ_comm; lia.
Qed.

Lemma contribution10_inj d d' k :
  0 <= d <= 9 -> 0 <= d' <= 9 ->
  (contribution10 d (weight10 k) - contribution10 d' (weight10 k)) mod 10 = 0
  -> d = d'.
Proof.
  intros Hd Hd'; unfold weight10, contribution10; cbn zeta.
  destruct (Nat.even k), (_ <? 10) eqn:E, (_ <? 10) eqn:E' in |- *;
    intros H; Z.div_mod_to_equations; lia.
Qed.

Lemma check10_inj t t' : check10 t = check10 t' -> t mod 10 = t' mod 10.
Proof.
  unfold check10; cbn zeta.
  pose proof (Z.mod_pos_bound t 10 ltac:(lia)).
  pose proof (Z.mod_pos_bound t' 10 ltac:(lia)).
  destruct (t mod 10 =? 0) eqn:E, (t' mod 10 =? 0) eqn:E'; cbn [negb]; lia.
Qed.

Lemma dv10_substitution pre c c' post :
  isdecimal c = true -> isdecimal c' = true -> c <> c' ->
  dv10 (pre ++ c :: post) <> dv10 (pre ++ c' :: post).
Proof.
  intros Hc Hc' Hne E; apply Hne, digit_value_inj.
  unfold dv10 in E; apply check10_inj in E.
  rewrite !rev_app_distr in E; cbn [rev] in E.
  rewrite <- !app_assoc in E; cbn [app] in E.
  rewrite !sum10_app in E; cbn [sum10] in E.
  apply (contribution10_inj _ _ (0 + length (rev post)));
    try (apply digit_value_range; assumption).
  Z.div_mod_to_equations; lia.
Qed.

(** The modulo-10 check digit detects every substitution of one digit: two
    digit strings that differ in one place never have the same check
    digit. *)
Theorem mod10_detects_substitution (s s' : str) :
  all_decimal s -> all_decimal s' -> differ_once s s' ->
  exists d d',
    __get_dv_module_10 s = Ok d /\ __get_dv_module_10 s' = Ok d' /\ d <> d'.
Proof.
  intros H H' (pre & c & c' & post & -> & -> & Hne).
  exists (dv10 (pre ++ c :: post)), (dv10 (pre ++ c' :: post)).
  rewrite !get_dv_module_10_decimal by assumption.
  repeat split.
  apply all_decimal_app in H as [_ H], H' as [_ H'].
  apply all_decimal_cons in H as [Hc _], H' as [Hc' _].
  now apply dv10_substitution.
Qed.

Lemma mod10_detects_substitution_witness :
  exists d d',
    __get_dv_module_10 (lit "001905009") = Ok d
    /\ __get_dv_module_10 (lit "001905109") = Ok d' /\ d <> d'.
Proof.
  apply (mod10_detects_substitution (lit "001905009") (lit "001905109"));
    try reflexivity.
  exists (lit "001905"), "0"%char, "1"%char, (lit "09").
  repeat split; discriminate.
Defined.

Lemma well_formed_validate r :
  well_formed r ->
  exists s1 s2 s3 s4,
    int (Field.dv (field_1 r)) = Ok s1
    /\ int (Field.dv (field_2 r)) = Ok s2
    /\ int (Field.dv (field_3 r)) = Ok s3
    /\ int (VStr (dv r)) = Ok s4
    /\ validate r
       = Ok ((dv10 (bank r ++ currency r ++ Field.info (field_1 r)) =? s1)
             && (dv10 (Field.info (field_2 r)) =? s2)
             && (dv10 (Field.info (field_3 r)) =? s3)
             && (dv11 (delete_at 4 (get_bar r)) =? s4)).
Proof.
  intros [Hb Hc H1 H2 H3 Hbar Hlen [s4 I4] [s1 I1] [s2 I2] [s3 I3]].
  exists s1, s2, s3, s4; repeat (split; [assumption|]).
  apply validate_ok; try assumption;
    try (apply get_dv_module_10_decimal; decimal_tac).
  apply get_dv_module_11_decimal; now apply all_decimal_delete_at.
Qed.

Lemma validate_true_inv r :
  well_formed r -> validate r = Ok true ->
  int (Field.dv (field_1 r))
  = Ok (dv10 (bank r ++ currency r ++ Field.info (field_1 r)))
  /\ int (Field.dv (field_2 r)) = Ok (dv10 (Field.info (field_2 r)))
  /\ int (Field.dv (field_3 r)) = Ok (dv10 (Field.info (field_3 r)))
  /\ int (VStr (dv r)) = Ok (dv11 (delete_at 4 (get_bar r))).
Proof.
  intros W V.
  destruct (well_formed_validate r W)
    as (s1 & s2 & s3 & s4 & I1 & I2 & I3 & I4 & E).
  rewrite E in V; injection V as V.
  rewrite !andb_true_iff, !Z.eqb_eq in V.
  destruct V as [[[V1 V2] V3] V4].
  rewrite I1, I2, I3, I4.
  repeat split; f_equal; symmetry; assumption.
Qed.







Lemma dv10_differ_once s s' :
  all_decimal s -> all_decimal s' -> differ_once s s' -> dv10 s <> dv10 s'.
Proof.
  intros H H' (pre & c & c' & post & -> & -> & Hne).
  apply all_decimal_app in H as [_ H], H' as [_ H'].
  apply all_decimal_cons in H as [Hc _], H' as [Hc' _].
  now apply dv10_substitution.
Qed.

Lemma differ_once_split n s s' :
  differ_once s s' ->
  (differ_once (firstn n s) (firstn n s') /\ skipn n s = skipn n s')
  \/ (firstn n s = firstn n s' /\ differ_once (skipn n s) (skipn n s')).
Proof.
  intros (pre & c & c' & post & -> & -> & Hne).
  rewrite !firstn_app, !skipn_app.
  destruct (Nat.le_gt_cases n (length pre)) as [Hn | Hn].
  - right; replace (n - length pre)%nat with 0%nat by lia.
    cbn [firstn skipn]; split; [reflexivity|].
    now exists (skipn n pre), c, c', post.
  - left; destruct (n - length pre)%nat as [|m] eqn:E; [lia|].
    rewrite firstn_all2, skipn_all2 by lia; cbn [firstn skipn app].
    split; [|reflexivity].
    now exists pre, c, c', (firstn m post).
Qed.

Lemma differ_once_single k k' : differ_once [k] [k'] -> k <> k'.
Proof.
  intros (pre & c & c' & post & E & E' & Hne).
  destruct pre as [|x pre]; [|destruct pre; discriminate].
  injection E as -> _; injection E' as -> _; assumption.
Qed.

(** A block of a payload and its check digit: if the check digit is right,
    it is wrong in every block that differs from it in one place. *)
Lemma block_detects n (K K' : str) s' :
  length K = S n -> all_decimal K -> all_decimal K' -> differ_once K K' ->
  int_str (skipn n K) = Ok (dv10 (firstn n K)) ->
  int_str (skipn n K') = Ok s' ->
  (dv10 (firstn n K') =? s') = false.
Proof.
  intros Hlen H H' D E E'; apply Z.eqb_neq; intros <-.
  destruct (differ_once_split n K K' D) as [[Dp Es] | [Ep Ds]].
  - rewrite Es, E' in E; injection E as E.
    symmetry in E; revert E; apply dv10_differ_once; auto with digits.
  - assert (length (skipn n K) = 1%nat) as L1
      by (rewrite length_skipn; lia).
    assert (length (skipn n K') = 1%nat) as L1'.
    { destruct Ds as (pre & c & c' & post & E1 & E2 & _).
      rewrite E2; rewrite E1 in L1.
      rewrite length_app in *; cbn [length] in *; lia. }
    destruct (skipn n K) as [|k [|]] eqn:Sk; try discriminate.
    destruct (skipn n K') as [|k' [|]] eqn:Sk'; try discriminate.
    apply differ_once_single in Ds; apply Ds, digit_value_inj.
    assert (isdecimal k = true /\ isdecimal k' = true) as [Hk Hk'].
    { apply (all_decimal_skipn n) in H, H'; rewrite Sk in H; rewrite Sk' in H'.
      apply all_decimal_cons in H as [? _], H' as [? _]; auto. }
    cbn in E, E'.
    rewrite (int_char_decimal _ Hk) in E.
    rewrite (int_char_decimal _ Hk') in E'.
    rewrite Ep in E; congruence.
Qed.

Lemma line_info_blocks L :
  length L = 47%nat ->
  let r := line_info L in
  bank r ++ currency r ++ Field.info (field_1 r) = firstn 9 (firstn 10 L)
  /\ Field.dv (field_1 r) = VStr (skipn 9 (firstn 10 L))
  /\ Field.info (field_2 r) = firstn 10 (firstn 11 (skipn 10 L))
  /\ Field.dv (field_2 r) = VStr (skipn 10 (firstn 11 (skipn 10 L)))
  /\ Field.info (field_3 r) = firstn 10 (firstn 11 (skipn 21 L))
  /\ Field.dv (field_3 r) = VStr (skipn 10 (firstn 11 (skipn 21 L))).
Proof.
  intros Hlen; explode L Hlen; repeat split.
Qed.

Lemma field_blocks (L : str) :
  firstn 10 (firstn 32 L) = firstn 10 L
  /\ firstn 11 (skipn 10 (firstn 32 L)) = firstn 11 (skipn 10 L)
  /\ skipn 11 (skipn 10 (firstn 32 L)) = firstn 11 (skipn 21 L).
Proof.
  repeat split.
  - now rewrite firstn_firstn.
  - now rewrite skipn_firstn_comm, firstn_firstn.
  - now rewrite skipn_skipn, skipn_firstn_comm.
Qed.

(** A wrong digit in the fields of a line is always detected: if a line of
    47 digits is valid, then every line of 47 digits whose first 32
    characters (the three fields with their check digits) differ from its
    own in exactly one place is not valid. *)
Theorem validate_detects_field_error (L L' : str) :
  length L = 47%nat -> length L' = 47%nat ->
  all_decimal L -> all_decimal L' ->
  differ_once (firstn 32 L) (firstn 32 L') ->
  exists r r',
    FebrabanCode (VStr L) = Ok r /\ FebrabanCode (VStr L') = Ok r'
    /\ (validate r = Ok true -> validate r' = Ok false).
Proof.
  intros Hlen Hlen' H H' D.
  exists (line_info L), (line_info L').
  split; [now apply FebrabanCode_line|].
  split; [now apply FebrabanCode_line|].
  intros V.
  pose proof (line_info_well_formed L Hlen H) as W.
  pose proof (line_info_well_formed L' Hlen' H') as W'.
  destruct (validate_true_inv _ W V) as (E1 & E2 & E3 & _).
  destruct (well_formed_validate _ W')
    as (s1 & s2 & s3 & s4 & I1 & I2 & I3 & _ & ->).
  destruct (line_info_blocks L Hlen) as (B1 & D1 & B2 & D2 & B3 & D3).
  destruct (line_info_blocks L' Hlen') as (B1' & D1' & B2' & D2' & B3' & D3').
  rewrite B1, D1 in E1; rewrite B2, D2 in E2; rewrite B3, D3 in E3.
  rewrite B1', B2', B3'.
  rewrite D1' in I1; rewrite D2' in I2; rewrite D3' in I3.
  cbn [int] in *.
  destruct (field_blocks L) as (F1 & F2 & F3).
  destruct (field_blocks L') as (F1' & F2' & F3').
  destruct (differ_once_split 10 _ _ D) as [[D10 _] | [_ D10]].
  - rewrite F1, F1' in D10.
    rewrite (block_detects 9 (firstn 10 L) (firstn 10 L') s1);
      auto with digits; slice_length.
  - destruct (differ_once_split 11 _ _ D10) as [[D11 _] | [_ D11]].
    + rewrite F2, F2' in D11.
      rewrite (block_detects 10 (firstn 11 (skipn 10 L))
                 (firstn 11 (skipn 10 L')) s2);
        auto with digits; [now rewrite andb_false_r | slice_length].
    + rewrite F3, F3' in D11.
      rewrite (block_detects 10 (firstn 11 (skipn 21 L))
                 (firstn 11 (skipn 21 L')) s3);
        auto with digits; [now rewrite andb_false_r | slice_length].
Qed.

Lemma validate_detects_field_error_witness :
  exists r r',
    FebrabanCode (VStr sample_line) = Ok r
    /\ FebrabanCode
         (VStr (lit "00190500954014481606906809350324337370000000100"))
       = Ok r'
    /\ (validate r = Ok true -> validate r' = Ok false).
Proof.
  apply (validate_detects_field_error sample_line
           (lit "00190500954014481606906809350324337370000000100"));
    try reflexivity.
  exists (lit "001905009540144816069068093503"), "1"%char, "2"%char,
    (lit "4").
  repeat split; discriminate.
Defined.

(* ================================================================== *)
(** ** Expiry, overall check digit and transpositions *)
(* ================================================================== *)

(** The expiry date of a constructed record is the base date plus the
    expiry factor read as a number of days: it never precedes the base date
    (ordinal 729304, 7 October 1997) and never goes beyond 9999 days after
    it (ordinal 739303). *)
Theorem expiry_range (code : obj) (r : code_info) :
  FebrabanCode code = Ok r ->
  __get_expiry (expiry_factor r) = Ok (expiry r)
  /\ expiry r = Date (729304 + digits_value (expiry_factor r))
  /\ 0 <= digits_value (expiry_factor r) <= 9999.
Proof.
  intros H; apply constructed_valid_texts in H.
  destruct H as (Hl & Hd & He & _).
  unfold line_pieces, code_line_widths in Hl, Hd.
  injection Hl as _ _ _ _ _ _ _ _ _ L _.
  texts_decimal.
  pose proof (digits_value_bound (expiry_factor r) ltac:(assumption)) as B.
  rewrite L in B; change (10 ^ Z.of_nat 4) with 10000 in B.
  rewrite He; split; [now apply get_expiry_decimal|].
  split; [reflexivity | lia].
Qed.

Lemma expiry_range_witness :
  let r := bar_info sample_bar in
  __get_expiry (expiry_factor r) = Ok (expiry r)
  /\ expiry r = Date (729304 + digits_value (expiry_factor r))
  /\ 0 <= digits_value (expiry_factor r) <= 9999.
Proof.
  apply (expiry_range (VStr sample_bar) (bar_info sample_bar)).
  vm_compute; reflexivity.
Defined.

Lemma bar_info_overall B :
  length B = 44%nat ->
  exists c, nth_error B 4 = Some c /\ dv (bar_info B) = [c].
Proof. intros Hlen; explode B Hlen; eexists; split; reflexivity. Qed.

(** A bar of 44 digits is valid exactly when its character at index 4 is
    the modulo-11 check digit of the other 43; as that digit is never 0, a
    bar whose character at index 4 is 0 is never valid. *)
Theorem bar_validity (B : str) :
  length B = 44%nat -> all_decimal B ->
  exists r c,
    FebrabanCode (VStr B) = Ok r
    /\ nth_error B 4 = Some c
    /\ validate r = Ok (dv11 (delete_at 4 B) =? digit_value c)
    /\ __get_dv_module_11 (delete_at 4 B) = Ok (dv11 (delete_at 4 B))
    /\ (digit_value c = 0 -> validate r = Ok false).
Proof.
  intros Hlen H.
  destruct (bar_info_overall B Hlen) as (c & Hc & Hdv).
  exists (bar_info B), c.
  split; [now apply FebrabanCode_bar|]; split; [assumption|].
  pose proof (bar_info_well_formed B Hlen H) as W.
  destruct (bar_info_check_digits B Hlen H)
    as (d1 & d2 & d3 & [E1 V1] & [E2 V2] & [E3 V3]).
  destruct (well_formed_validate _ W)
    as (s1 & s2 & s3 & s4 & I1 & I2 & I3 & I4 & E).
  rewrite get_dv_module_10_decimal in E1, E2, E3
    by (destruct W; decimal_tac).
  rewrite V1 in I1; rewrite V2 in I2; rewrite V3 in I3.
  cbn [int] in I1, I2, I3, I4.
  assert (isdecimal c = true) as Dc.
  { apply nth_error_In in Hc; unfold all_decimal in H.
    rewrite forallb_forall in H; auto. }
  rewrite Hdv in I4; cbn in I4; rewrite (int_char_decimal _ Dc) in I4.
  assert (validate (bar_info B)
          = Ok (dv11 (delete_at 4 B) =? digit_value c)) as V.
  { rewrite E, get_bar_bar_info by assumption.
    replace s1 with (dv10 (bank (bar_info B) ++ currency (bar_info B)
                           ++ Field.info (field_1 (bar_info B))))
      by congruence.
    replace s2 with (dv10 (Field.info (field_2 (bar_info B))))
      by congruence.
    replace s3 with (dv10 (Field.info (field_3 (bar_info B))))
      by congruence.
    replace s4 with (digit_value c) by congruence.
    now rewrite !Z.eqb_refl. }
  split; [assumption|]; split.
  - apply get_dv_module_11_decimal; now apply all_decimal_delete_at.
  - intros Z0; rewrite V, Z0; f_equal; apply Z.eqb_neq.
    pose proof (check11_range (weighted_sum cycle11 (delete_at 4 B) 0)).
    unfold dv11; lia.
Qed.

Lemma bar_validity_witness :
  exists r c,
    FebrabanCode (VStr sample_bar) = Ok r
    /\ nth_error sample_bar 4 = Some c
    /\ validate r = Ok (dv11 (delete_at 4 sample_bar) =? digit_value c)
    /\ __get_dv_module_11 (delete_at 4 sample_bar)
       = Ok (dv11 (delete_at 4 sample_bar))
    /\ (digit_value c = 0 -> validate r = Ok false).
Proof. apply (bar_validity sample_bar); reflexivity. Defined.

Lemma check10_mod t t' : check10 t = check10 t' <-> t mod 10 = t' mod 10.
Proof.
  split; [apply check10_inj|]; unfold check10; cbn zeta; now intros ->.
Qed.

Lemma contribution10_pair a b k :
  0 <= a <= 9 -> 0 <= b <= 9 ->
  ((contribution10 b (weight10 k) + contribution10 a (weight10 (S k))) mod 10
   = (contribution10 a (weight10 k) + contribution10 b (weight10 (S k)))
     mod 10
   <-> a = b \/ (a = 0 /\ b = 9) \/ (a = 9 /\ b = 0)).
Proof.
  intros Ha Hb; unfold weight10; rewrite Nat.even_succ, <- Nat.negb_even.
  unfold contribution10; cbn zeta.
  destruct (Nat.even k); cbn [negb];
    destruct (a * 2 <? 10) eqn:Ea, (b * 2 <? 10) eqn:Eb,
             (a * 1 <? 10) eqn:Ea1, (b * 1 <? 10) eqn:Eb1;
    try lia; split; intros; Z.div_mod_to_equations; lia.
Qed.

(** The modulo-10 check digit detects the exchange of two neighbouring
    digits, except when they are equal or are 0 and 9. *)
Theorem mod10_transposition (pre post : str) (a b : ascii) :
  all_decimal (pre ++ a :: b :: post) ->
  exists d d',
    __get_dv_module_10 (pre ++ a :: b :: post) = Ok d
    /\ __get_dv_module_10 (pre ++ b :: a :: post) = Ok d'
    /\ (d = d' <-> a = b
                  \/ (digit_value a = 0 /\ digit_value b = 9)
                  \/ (digit_value a = 9 /\ digit_value b = 0)).
Proof.
  intros H.
  assert (all_decimal (pre ++ b :: a :: post)) as H'.
  { apply all_decimal_app in H as [Hp H].
    apply all_decimal_cons in H as [Ha H].
    apply all_decimal_cons in H as [Hb H].
    apply all_decimal_app; split; [assumption|].
    apply all_decimal_cons; split; [assumption|].
    now apply all_decimal_cons. }
  exists (dv10 (pre ++ a :: b :: post)), (dv10 (pre ++ b :: a :: post)).
  rewrite !get_dv_module_10_decimal by assumption.
  split; [reflexivity|]; split; [reflexivity|].
  apply all_decimal_app in H as [_ H].
  apply all_decimal_cons in H as [Ha H].
  apply all_decimal_cons in H as [Hb _].
  pose proof (digit_value_range _ Ha) as Ra.
  pose proof (digit_value_range _ Hb) as Rb.
  unfold dv10; rewrite check10_mod.
  rewrite !rev_app_distr; cbn [rev]; rewrite <- !app_assoc; cbn [app].
  rewrite !sum10_app; cbn [sum10].
  pose proof (contribution10_pair (digit_value a) (digit_value b)
                (0 + length (rev post)) Ra Rb) as P.
  assert (a = b <-> digit_value a = digit_value b) as Eab
    by (split; [now intros -> | apply digit_value_inj]).
  rewrite Eab, <- P.
  split; intros E; Z.div_mod_to_equations; lia.
Qed.

Lemma mod10_transposition_witness :
  exists d d',
    __get_dv_module_10 (lit "001905009") = Ok d
    /\ __get_dv_module_10 (lit "001950009") = Ok d'
    /\ (d = d' <-> "0"%char = "5"%char
                  \/ (digit_value "0" = 0 /\ digit_value "5" = 9)
                  \/ (digit_value "0" = 9 /\ digit_value "5" = 0)).
Proof.
  apply (mod10_transposition (lit "0019") (lit "009") "0" "5").
  reflexivity.
Defined.

